(** * PapilioSPI: the master-side SPI transport of the Papilio FPGA modules

    A shallow embedding of [src/PapilioSPI.h] and [src/PapilioSPI.cpp].

    The class talks to three things outside itself: the Arduino core
    ([pinMode], [digitalWrite], [delayMicroseconds]), an [SPIClass]
    driver ([beginTransaction], [transfer], [endTransaction]) and the
    caller's RAM (the buffers of [transferBurst]).  Every call into the
    first two is recorded, in program order, on the [wire] of a [World];
    the RAM is a flat byte memory.  Methods are computations in the state
    monad [HW] over that world, the object itself ([*this]) is passed
    explicitly and returned by the methods that assign to a field.

    Integers are in [Z].  An argument of type [uint8_t], [uint16_t] or
    [uint32_t] is the value the callee sees, so a statement about "every
    32-bit value" carries its range as a hypothesis; conversions the code
    performs on the way are written out with [u8], [u16] and [u32].
    A pointer is [None] for [nullptr] and [Some] of an address otherwise;
    [size_t len] is a non-negative [Z]. *)

From Stdlib Require Import ZArith List Bool Lia.
Import ListNotations.
Local Open Scope Z_scope.

(** ** Fixed-width unsigned integers *)

(** Conversion to [uint8_t], [uint16_t], [uint32_t]: reduction modulo 2^w. *)
Definition u8 (z : Z) : Z := z mod 2 ^ 8.
Definition u16 (z : Z) : Z := z mod 2 ^ 16.
Definition u32 (z : Z) : Z := z mod 2 ^ 32.

(** ** The hardware boundary *)

Inductive Level : Type := LOW | HIGH.
Inductive PinDirection : Type := INPUT | OUTPUT.
Inductive BitOrder : Type := LSBFIRST | MSBFIRST.

(** An [SPIClass*] that is not [nullptr] is the address of a driver object. *)
Definition SPIClass : Type := Z.

(** [SPISettings(clock, bitOrder, dataMode)]. *)
Record SPISettings : Type := mkSPISettings {
  clock : Z;
  bitOrder : BitOrder;
  dataMode : Z
}.

(** One call across the hardware boundary. *)
Inductive Event : Type :=
| PinMode (pin : Z) (dir : PinDirection)
| DigitalWrite (pin : Z) (lvl : Level)
| DelayMicroseconds (us : Z)
| BeginTransaction (spi : SPIClass) (cfg : SPISettings)
| Transfer (spi : SPIClass) (mosi miso : Z)
| EndTransaction (spi : SPIClass).

(** The world a method runs in: the calls made so far, oldest first, and
    the byte-addressed RAM that holds the caller's buffers. *)
Record World : Type := mkWorld {
  wire : list Event;
  ram : Z -> Z
}.

(** What the peripheral shifts back on an exchange may depend on everything
    that happened on the pins before. *)
Definition Peripheral : Type := list Event -> SPIClass -> Z -> Z.

(** ** The state monad of hardware effects *)

Definition HW (A : Type) : Type := World -> A * World.

Definition ret {A : Type} (a : A) : HW A := fun w => (a, w).

Definition bind {A B : Type} (c : HW A) (k : A -> HW B) : HW B :=
  fun w => let (a, w') := c w in k a w'.

Notation "x <- c ;; k" := (bind c (fun x => k))
  (at level 61, c at next level, right associativity).
Notation "c ;; k" := (bind c (fun _ => k))
  (at level 61, right associativity).

Definition emit (e : Event) : HW unit :=
  fun w => (tt, mkWorld (wire w ++ [e]) (ram w)).

(** Arduino core. *)
Definition pinMode (pin : Z) (dir : PinDirection) : HW unit := emit (PinMode pin dir).
Definition digitalWrite (pin : Z) (lvl : Level) : HW unit := emit (DigitalWrite pin lvl).
Definition delayMicroseconds (us : Z) : HW unit := emit (DelayMicroseconds us).

(** [SPIClass::beginTransaction], [SPIClass::endTransaction]. *)
Definition spi_beginTransaction (spi : SPIClass) (cfg : SPISettings) : HW unit :=
  emit (BeginTransaction spi cfg).
Definition spi_endTransaction (spi : SPIClass) : HW unit :=
  emit (EndTransaction spi).

(** [uint8_t SPIClass::transfer(uint8_t)]: one full-duplex byte exchange.
    The byte that comes back is whatever the peripheral answers, as a
    [uint8_t]. *)
Definition spi_transfer (dev : Peripheral) (spi : SPIClass) (data : Z) : HW Z :=
  fun w =>
    let rx := u8 (dev (wire w) spi data) in
    (rx, mkWorld (wire w ++ [Transfer spi data rx]) (ram w)).

(** Caller RAM: [p[i]] read and written through a [uint8_t*]. *)
Definition load (addr : Z) : HW Z := fun w => (u8 (ram w addr), w).
Definition store (addr : Z) (v : Z) : HW unit :=
  fun w => (tt, mkWorld (wire w) (fun a => if a =? addr then v else ram w a)).

(** ** Peripherals used to run the model *)

(** A wire from MOSI to MISO: every exchange returns the byte just sent. *)
Definition echo : Peripheral := fun _ _ tx => tx.

(** The shift register of the loop-back FPGA design: an exchange returns the
    byte sent on the exchange before it, zero on the first. *)
Fixpoint last_mosi (tr : list Event) (acc : Z) : Z :=
  match tr with
  | [] => acc
  | Transfer _ tx _ :: tr' => last_mosi tr' tx
  | _ :: tr' => last_mosi tr' acc
  end.
Definition pipeline : Peripheral := fun tr _ _ => last_mosi tr 0.

(** A peripheral that never drives MISO low. *)
Definition stuck_high : Peripheral := fun _ _ _ => 255.

(** ** Reading the wire *)

(** The level a pin is left at by a run of calls, [lvl] before it. *)
Definition drive (pin : Z) (lvl : option Level) (e : Event) : option Level :=
  match e with
  | DigitalWrite p l => if p =? pin then Some l else lvl
  | _ => lvl
  end.

Definition line (pin : Z) (tr : list Event) (lvl : option Level) : option Level :=
  fold_left (drive pin) tr lvl.

Definition is_exchange (e : Event) : bool :=
  match e with
  | Transfer _ _ _ => true
  | _ => false
  end.

(** How many physical byte exchanges a run of calls holds. *)
Definition exchange_count (tr : list Event) : nat :=
  length (filter is_exchange tr).

(** The exchanges of bytes [txs] answered by [rxs], in order. *)
Definition exchanges (spi : SPIClass) (txs rxs : list Z) : list Event :=
  map (fun p => Transfer spi (fst p) (snd p)) (combine txs rxs).

(** ** Fixtures *)

(** A world in which nothing has happened yet and RAM reads as zero. *)
Definition boot : World := mkWorld [] (fun _ => 0).

(** RAM holding the bytes 17, 34, 51 at addresses 100, 101, 102. *)
Definition boot_buf : World :=
  mkWorld [] (fun a => if a =? 100 then 17 else if a =? 101 then 34
                       else if a =? 102 then 51 else 0).

(** The test pattern of [testBurstAtSpeed_8bit]
    ([examples/burst_transfers/src/main.cpp], lines 113-115):
    [tx_data[i] = i & 0xFF] for [i] from 0 to [BURST_SIZE = 256]. *)
Definition tx_pattern_8bit : list Z :=
  map (fun i => Z.land (Z.of_nat i) 255) (seq 0 257).

(** The clock-mode constants of the ESP32 Arduino core, the platform the
    examples are built for. *)
Definition ESP32_SPI_MODE0 : Z := 0.
Definition ESP32_SPI_MODE3 : Z := 3.

(** ** The class *)

Record PapilioSPI : Type := mkPapilioSPI {
  _spi : option SPIClass;
  _cs : Z;
  _speed : Z;
  _mode : Z;
  _bitWidth : Z;
  _initialized : bool
}.

(** The handle after [begin(&fpgaSPI, 10, 1000000, SPI_MODE1)], the driver
    object at address 1. *)
Definition link : PapilioSPI := mkPapilioSPI (Some 1) 10 1000000 1 8 true.

Section Methods.

(** The clock-mode constants come from the platform's [SPI.h]. *)
Variable SPI_MODE0 : Z.
Variable SPI_MODE3 : Z.

(** The peripheral on the other end of the link. *)
Variable dev : Peripheral.

(** [PapilioSPI::PapilioSPI()] *)
Definition PapilioSPI_ctor : PapilioSPI :=
  mkPapilioSPI None (-1) 1000000 SPI_MODE0 8 false.

(** [bool begin(SPIClass* spi, int cs_pin, uint32_t speed, uint8_t mode)] *)
Definition begin (this : PapilioSPI) (spi : option SPIClass)
    (cs_pin speed mode : Z) : HW (bool * PapilioSPI) :=
  let this := mkPapilioSPI spi cs_pin speed mode 8 (_initialized this) in
  pinMode (_cs this) OUTPUT ;;
  digitalWrite (_cs this) HIGH ;;
  let this := mkPapilioSPI (_spi this) (_cs this) (_speed this) (_mode this)
                           (_bitWidth this) true in
  ret (true, this).

(** [void end()] *)
Definition end_ (this : PapilioSPI) : PapilioSPI :=
  mkPapilioSPI None (_cs this) (_speed this) (_mode this) (_bitWidth this) false.

(** [void _beginTransaction()] *)
Definition _beginTransaction (this : PapilioSPI) : HW unit :=
  match _spi this with
  | Some spi => spi_beginTransaction spi (mkSPISettings (_speed this) MSBFIRST (_mode this))
  | None => ret tt
  end.

(** [void _endTransaction()] *)
Definition _endTransaction (this : PapilioSPI) : HW unit :=
  match _spi this with
  | Some spi => spi_endTransaction spi
  | None => ret tt
  end.

(** [void _csLow()] *)
Definition _csLow (this : PapilioSPI) : HW unit :=
  digitalWrite (_cs this) LOW ;;
  delayMicroseconds 1.

(** [void _csHigh()] *)
Definition _csHigh (this : PapilioSPI) : HW unit :=
  delayMicroseconds 1 ;;
  digitalWrite (_cs this) HIGH.

(** [uint8_t transfer8(uint8_t data)] *)
Definition transfer8 (this : PapilioSPI) (data : Z) : HW Z :=
  match _initialized this, _spi this with
  | true, Some spi =>
      _beginTransaction this ;;
      _csLow this ;;
      result <- spi_transfer dev spi data ;;
      _csHigh this ;;
      _endTransaction this ;;
      ret result
  | _, _ => ret 0
  end.

(** [uint16_t transfer16(uint16_t data)] *)
Definition transfer16 (this : PapilioSPI) (data : Z) : HW Z :=
  match _initialized this, _spi this with
  | true, Some spi =>
      _beginTransaction this ;;
      _csLow this ;;
      high <- spi_transfer dev spi (Z.land (Z.shiftr data 8) 255) ;;
      low <- spi_transfer dev spi (Z.land data 255) ;;
      _csHigh this ;;
      _endTransaction this ;;
      ret (u16 (Z.lor (Z.shiftl high 8) low))
  | _, _ => ret 0
  end.

(** [uint32_t transfer32(uint32_t data)] *)
Definition transfer32 (this : PapilioSPI) (data : Z) : HW Z :=
  match _initialized this, _spi this with
  | true, Some spi =>
      _beginTransaction this ;;
      _csLow this ;;
      b3 <- spi_transfer dev spi (Z.land (Z.shiftr data 24) 255) ;;
      b2 <- spi_transfer dev spi (Z.land (Z.shiftr data 16) 255) ;;
      b1 <- spi_transfer dev spi (Z.land (Z.shiftr data 8) 255) ;;
      b0 <- spi_transfer dev spi (Z.land data 255) ;;
      _csHigh this ;;
      _endTransaction this ;;
      ret (Z.lor (Z.lor (Z.lor (u32 (Z.shiftl b3 24)) (u32 (Z.shiftl b2 16)))
                        (u32 (Z.shiftl b1 8))) b0)
  | _, _ => ret 0
  end.

(** The body of the [for] loop of [transferBurst], from index [i], with
    [n = len - i] iterations to go. *)
Fixpoint burst_loop (spi : SPIClass) (txBuf rxBuf : option Z) (i : Z) (n : nat)
    : HW unit :=
  match n with
  | O => ret tt
  | S n' =>
      txByte <- match txBuf with
                | Some p => load (p + i)
                | None => ret 0
                end ;;
      rxByte <- spi_transfer dev spi txByte ;;
      match rxBuf with
      | Some p => store (p + i) rxByte
      | None => ret tt
      end ;;
      burst_loop spi txBuf rxBuf (i + 1) n'
  end.

(** [void transferBurst(const uint8_t* txBuf, uint8_t* rxBuf, size_t len)] *)
Definition transferBurst (this : PapilioSPI) (txBuf rxBuf : option Z) (len : Z)
    : HW unit :=
  match _initialized this, _spi this with
  | true, Some spi =>
      if len =? 0 then ret tt
      else
        _beginTransaction this ;;
        _csLow this ;;
        burst_loop spi txBuf rxBuf 0 (Z.to_nat len) ;;
        _csHigh this ;;
        _endTransaction this
  | _, _ => ret tt
  end.

(** [void setBitWidth(uint8_t width)] *)
Definition setBitWidth (this : PapilioSPI) (width : Z) : PapilioSPI :=
  if (width =? 8) || (width =? 16) || (width =? 32)
  then mkPapilioSPI (_spi this) (_cs this) (_speed this) (_mode this) width
                    (_initialized this)
  else this.

(** [void setSpeed(uint32_t hz)] *)
Definition setSpeed (this : PapilioSPI) (hz : Z) : PapilioSPI :=
  mkPapilioSPI (_spi this) (_cs this) hz (_mode this) (_bitWidth this)
               (_initialized this).

(** [void setMode(uint8_t mode)] *)
Definition setMode (this : PapilioSPI) (mode : Z) : PapilioSPI :=
  if mode <=? SPI_MODE3
  then mkPapilioSPI (_spi this) (_cs this) (_speed this) mode (_bitWidth this)
                    (_initialized this)
  else this.

(** [int rxAvailable()] *)
Definition rxAvailable (this : PapilioSPI) : HW Z := ret 0.

(** [bool txReady()] *)
Definition txReady (this : PapilioSPI) : HW bool := ret true.

(** [uint8_t readFifo()] *)
Definition readFifo (this : PapilioSPI) : HW Z := transfer8 this 0.

(** [void writeFifo(uint8_t data)] *)
Definition writeFifo (this : PapilioSPI) (data : Z) : HW unit :=
  transfer8 this data ;; ret tt.

(** [bool isReady()] *)
Definition isReady (this : PapilioSPI) : HW bool :=
  match _initialized this, _spi this with
  | true, Some _ =>
      let testPattern := 165 in
      response <- transfer8 this testPattern ;;
      ret true
  | _, _ => ret false
  end.

(** ** Call sequences

    A caller's use of a handle is a sequence of calls of its public
    methods; [invoke] dispatches one, [run] a sequence. *)

Inductive Call : Type :=
| Call_begin (spi : option SPIClass) (cs_pin speed mode : Z)
| Call_end
| Call_transfer8 (data : Z)
| Call_transfer16 (data : Z)
| Call_transfer32 (data : Z)
| Call_transferBurst (txBuf rxBuf : option Z) (len : Z)
| Call_setBitWidth (width : Z)
| Call_setSpeed (hz : Z)
| Call_setMode (mode : Z)
| Call_rxAvailable
| Call_txReady
| Call_readFifo
| Call_writeFifo (data : Z)
| Call_isReady.

Inductive Value : Type :=
| Void
| Bool (b : bool)
| Int (z : Z).

Definition invoke (c : Call) (this : PapilioSPI) : HW (Value * PapilioSPI) :=
  match c with
  | Call_begin spi cs_pin speed mode =>
      r <- begin this spi cs_pin speed mode ;; ret (Bool (fst r), snd r)
  | Call_end => ret (Void, end_ this)
  | Call_transfer8 data => r <- transfer8 this data ;; ret (Int r, this)
  | Call_transfer16 data => r <- transfer16 this data ;; ret (Int r, this)
  | Call_transfer32 data => r <- transfer32 this data ;; ret (Int r, this)
  | Call_transferBurst txBuf rxBuf len =>
      transferBurst this txBuf rxBuf len ;; ret (Void, this)
  | Call_setBitWidth width => ret (Void, setBitWidth this width)
  | Call_setSpeed hz => ret (Void, setSpeed this hz)
  | Call_setMode mode => ret (Void, setMode this mode)
  | Call_rxAvailable => r <- rxAvailable this ;; ret (Int r, this)
  | Call_txReady => r <- txReady this ;; ret (Bool r, this)
  | Call_readFifo => r <- readFifo this ;; ret (Int r, this)
  | Call_writeFifo data => writeFifo this data ;; ret (Void, this)
  | Call_isReady => r <- isReady this ;; ret (Bool r, this)
  end.

Fixpoint run (cs : list Call) (this : PapilioSPI) : HW PapilioSPI :=
  match cs with
  | [] => ret this
  | c :: cs' => r <- invoke c this ;; run cs' (snd r)
  end.

(** Whether a handle with this call history is begun: the last [begin] or
    [end] in it, if any, is a [begin]. *)
Fixpoint begun (cs : list Call) (b : bool) : bool :=
  match cs with
  | [] => b
  | Call_begin _ _ _ _ :: cs' => begun cs' true
  | Call_end :: cs' => begun cs' false
  | _ :: cs' => begun cs' b
  end.

(** Whether a call history holds a [begin] at all. *)
Definition has_begin (cs : list Call) : bool :=
  existsb (fun c => match c with Call_begin _ _ _ _ => true | _ => false end) cs.

(** The four transfer entry points. *)
Definition is_transfer (c : Call) : bool :=
  match c with
  | Call_transfer8 _ | Call_transfer16 _ | Call_transfer32 _
  | Call_transferBurst _ _ _ => true
  | _ => false
  end.

(** ** Transaction windows *)

(** The calls that open a transaction window: the settings are applied,
    then the select line goes low, then the setup delay. *)
Definition window_open (this : PapilioSPI) (spi : SPIClass) : list Event :=
  [BeginTransaction spi (mkSPISettings (_speed this) MSBFIRST (_mode this));
   DigitalWrite (_cs this) LOW;
   DelayMicroseconds 1].

(** The calls that close it: the hold delay, then the select line goes
    high, then the bus is released. *)
Definition window_close (this : PapilioSPI) (spi : SPIClass) : list Event :=
  [DelayMicroseconds 1;
   DigitalWrite (_cs this) HIGH;
   EndTransaction spi].

(** One transaction window around [body]. *)
Definition window (this : PapilioSPI) (spi : SPIClass) (body : list Event)
    : list Event :=
  window_open this spi ++ body ++ window_close this spi.

(** What a call of a transfer entry point puts on the wire: nothing, or one
    whole window around byte exchanges. *)
Definition nothing_or_window (this : PapilioSPI) (ev : list Event) : Prop :=
  ev = [] \/
  exists (spi : SPIClass) (body : list Event),
    _initialized this = true /\ _spi this = Some spi /\
    ev = window this spi body /\ forallb is_exchange body = true.

(** Two handles that agree on every field but the word width. *)
Definition same_but_width (a b : PapilioSPI) : Prop :=
  _spi a = _spi b /\ _cs a = _cs b /\ _speed a = _speed b /\
  _mode a = _mode b /\ _initialized a = _initialized b.

(** ** The handle and the wire across calls *)

(** The guard every transfer entry point tests before it touches the bus. *)
Definition ready (this : PapilioSPI) : bool :=
  _initialized this && match _spi this with Some _ => true | None => false end.

(** The fields a call assigns: only [begin], [end] and the three setters
    write to the object. *)
Definition next_handle (c : Call) (this : PapilioSPI) : PapilioSPI :=
  match c with
  | Call_begin spi cs_pin speed mode => mkPapilioSPI spi cs_pin speed mode 8 true
  | Call_end => end_ this
  | Call_setBitWidth width => setBitWidth this width
  | Call_setSpeed hz => setSpeed this hz
  | Call_setMode mode => setMode this mode
  | _ => this
  end.

Definition handle_after (cs : list Call) (this : PapilioSPI) : PapilioSPI :=
  fold_left (fun h c => next_handle c h) cs this.

(** The number of byte exchanges a call makes on a handle. *)
Definition exchanges_of (c : Call) (this : PapilioSPI) : nat :=
  if ready this then
    match c with
    | Call_transfer8 _ | Call_readFifo | Call_writeFifo _ | Call_isReady => 1
    | Call_transfer16 _ => 2
    | Call_transfer32 _ => 4
    | Call_transferBurst _ _ len => Z.to_nat len
    | _ => 0
    end
  else 0.

Fixpoint exchanges_of_run (cs : list Call) (this : PapilioSPI) : nat :=
  match cs with
  | [] => 0
  | c :: cs' => exchanges_of c this + exchanges_of_run cs' (next_handle c this)
  end.

(** The bytes shifted out on MOSI, oldest first. *)
Definition mosi_bytes (tr : list Event) : list Z :=
  flat_map (fun e => match e with Transfer _ tx _ => [tx] | _ => [] end) tr.

(** ** The bus protocol

    The order of calls that the peripheral and the driver rely on, as an
    automaton over the wire: a transaction is begun with MSB-first
    settings, the select line goes low, a setup delay passes, bytes are exchanged on the bus that was
    begun, a hold delay passes, the same select line goes high, and the same
    bus is released.  Outside a window only pin configuration, a pin driven
    high, and delays occur. *)

Inductive Phase : Type :=
| Idle
| Claimed (spi : SPIClass)
| Setup (spi : SPIClass) (cs : Z)
| Selected (spi : SPIClass) (cs : Z)
| Hold (spi : SPIClass) (cs : Z)
| Released (spi : SPIClass).

Definition phase_step (ph : Phase) (e : Event) : option Phase :=
  match ph, e with
  | Idle, PinMode _ _ => Some Idle
  | Idle, DigitalWrite _ HIGH => Some Idle
  | Idle, DelayMicroseconds _ => Some Idle
  | Idle, BeginTransaction spi cfg =>
      match bitOrder cfg with
      | MSBFIRST => Some (Claimed spi)
      | LSBFIRST => None
      end
  | Claimed spi, DigitalWrite cs LOW => Some (Setup spi cs)
  | Setup spi cs, DelayMicroseconds _ => Some (Selected spi cs)
  | Selected spi cs, Transfer spi' _ _ =>
      if spi' =? spi then Some (Selected spi cs) else None
  | Selected spi cs, DelayMicroseconds _ => Some (Hold spi cs)
  | Hold spi cs, DigitalWrite cs' HIGH =>
      if cs' =? cs then Some (Released spi) else None
  | Released spi, EndTransaction spi' =>
      if spi' =? spi then Some Idle else None
  | _, _ => None
  end.

Fixpoint phase_run (ph : Phase) (tr : list Event) : option Phase :=
  match tr with
  | [] => Some ph
  | e :: tr' =>
      match phase_step ph e with
      | Some ph' => phase_run ph' tr'
      | None => None
      end
  end.

(** ** A caller: the transfer loop of [testBurstAtSpeed_8bit]

    [examples/burst_transfers/src/main.cpp], lines 120-123:
    [for (i = 0; i <= BURST_SIZE; i++) { rx_data[i] = spi.transfer8(tx_data[i]);
    delayMicroseconds(50); }], the arrays as lists. *)
Fixpoint transfer8_loop (this : PapilioSPI) (tx_data : list Z) : HW (list Z) :=
  match tx_data with
  | [] => ret []
  | d :: rest =>
      r <- transfer8 this d ;;
      delayMicroseconds 50 ;;
      rs <- transfer8_loop this rest ;;
      ret (r :: rs)
  end.

(** ** Bytes and words *)

Lemma u8_range (z : Z) : 0 <= u8 z < 256.
Proof. unfold u8. apply Z.mod_pos_bound. reflexivity. Qed.

Lemma testbit_below_pow2 (lo k n : Z) :
  0 <= lo < 2 ^ k -> k <= n -> Z.testbit lo n = false.
Proof.
  intros Hlo Hn.
  destruct (Z.eq_dec lo 0) as [-> | Hnz]; [apply Z.bits_0 |].
  apply Z.bits_above_log2; [lia |].
  apply Z.lt_le_trans with k; [| assumption].
  apply Z.log2_lt_pow2; lia.
Qed.

(** Or-ing a value below 2^k under a multiple of 2^k adds them. *)
Lemma lor_mul_pow2_add (h lo k : Z) :
  0 <= k -> 0 <= lo < 2 ^ k -> Z.lor (h * 2 ^ k) lo = h * 2 ^ k + lo.
Proof.
  intros Hk Hlo.
  assert (Hdisj : Z.land (h * 2 ^ k) lo = 0).
  { apply Z.bits_inj'. intros n Hn.
    rewrite Z.land_spec, Z.bits_0.
    destruct (Z.lt_ge_cases n k) as [Hlt | Hge].
    - rewrite Z.mul_pow2_bits_low by assumption. reflexivity.
    - rewrite (testbit_below_pow2 lo k n) by assumption. apply andb_false_r. }
  rewrite <- Z.lxor_lor by assumption.
  symmetry. apply Z.add_nocarry_lxor. assumption.
Qed.

(** [(x >> k) & 0xFF] is byte [k / 8] of [x]. *)
Lemma byte_of_word (x k : Z) :
  0 <= k -> Z.land (Z.shiftr x k) 255 = x / 2 ^ k mod 256.
Proof.
  intros Hk. change 255 with (Z.ones 8).
  rewrite Z.land_ones by lia. rewrite Z.shiftr_div_pow2 by assumption.
  reflexivity.
Qed.

Lemma low_byte_of_word (x : Z) : Z.land x 255 = x mod 256.
Proof. change 255 with (Z.ones 8). rewrite Z.land_ones by lia. reflexivity. Qed.

(** The reassembly expression of [transfer32] on four bytes. *)
Lemma assemble32 (b3 b2 b1 b0 : Z) :
  0 <= b3 < 256 -> 0 <= b2 < 256 -> 0 <= b1 < 256 -> 0 <= b0 < 256 ->
  Z.lor (Z.lor (Z.lor (u32 (Z.shiftl b3 24)) (u32 (Z.shiftl b2 16)))
               (u32 (Z.shiftl b1 8))) b0
  = b3 * 2 ^ 24 + b2 * 2 ^ 16 + b1 * 2 ^ 8 + b0.
Proof.
  intros H3 H2 H1 H0. unfold u32.
  rewrite !Z.shiftl_mul_pow2 by lia.
  rewrite !Z.mod_small by lia.
  rewrite (lor_mul_pow2_add b3 (b2 * 2 ^ 16) 24) by lia.
  replace (b3 * 2 ^ 24 + b2 * 2 ^ 16) with ((b3 * 2 ^ 8 + b2) * 2 ^ 16) by lia.
  rewrite (lor_mul_pow2_add _ (b1 * 2 ^ 8) 16) by lia.
  replace ((b3 * 2 ^ 8 + b2) * 2 ^ 16 + b1 * 2 ^ 8)
    with ((b3 * 2 ^ 16 + b2 * 2 ^ 8 + b1) * 2 ^ 8) by lia.
  rewrite (lor_mul_pow2_add _ b0 8) by lia.
  lia.
Qed.

(** The reassembly expression of [transfer16] on two bytes. *)
Lemma assemble16 (high low : Z) :
  0 <= high < 256 -> 0 <= low < 256 ->
  u16 (Z.lor (Z.shiftl high 8) low) = high * 2 ^ 8 + low.
Proof.
  intros Hh Hl. unfold u16.
  rewrite Z.shiftl_mul_pow2 by lia.
  rewrite (lor_mul_pow2_add high low 8) by lia.
  apply Z.mod_small. lia.
Qed.

(** A 32-bit word is the sum of its four bytes. *)
Lemma bytes_of_word32 (v : Z) :
  0 <= v < 2 ^ 32 ->
  (v / 2 ^ 24 mod 256) * 2 ^ 24 + (v / 2 ^ 16 mod 256) * 2 ^ 16
  + (v / 2 ^ 8 mod 256) * 2 ^ 8 + v mod 256 = v.
Proof.
  intros Hv.
  change (2 ^ 8) with 256. change (2 ^ 16) with 65536.
  change (2 ^ 24) with 16777216. change (2 ^ 32) with 4294967296 in Hv.
  Z.div_mod_to_equations. lia.
Qed.

Lemma bytes_of_word16 (v : Z) :
  0 <= v < 2 ^ 16 -> (v / 2 ^ 8 mod 256) * 2 ^ 8 + v mod 256 = v.
Proof.
  intros Hv.
  change (2 ^ 8) with 256. change (2 ^ 16) with 65536 in Hv.
  Z.div_mod_to_equations. lia.
Qed.

(** ** Running straight-line method bodies *)

Ltac run_method :=
  cbv beta iota zeta delta
      [transfer8 transfer16 transfer32 transferBurst readFifo writeFifo isReady
       rxAvailable txReady begin
       _beginTransaction _endTransaction _csLow _csHigh
       spi_beginTransaction spi_endTransaction spi_transfer
       pinMode digitalWrite delayMicroseconds emit bind ret
       wire ram _spi _cs _speed _mode _bitWidth _initialized
       window window_open window_close];
  repeat rewrite <- app_assoc; cbn [app].

(** ** Word transfers *)

(** C1. On an initialized link (the flag set and a driver stored),
    [transfer32] of a 32-bit value [v] makes four exchanges inside one
    transaction window, sending bits 31-24, 23-16, 15-8 and 7-0 of [v] in
    that order, and returns the word whose bytes, most significant first,
    are the four bytes received; when each exchange returns the byte it
    sent, the result is [v].  [transfer16] does the same with two bytes. *)
Theorem C1_transfer_msb_first (this : PapilioSPI) (spi : SPIClass) (w : World) (v : Z) :
  _initialized this = true ->
  _spi this = Some spi ->
  (0 <= v < 2 ^ 32 ->
   exists r3 r2 r1 r0 : Z,
     (0 <= r3 < 256 /\ 0 <= r2 < 256 /\ 0 <= r1 < 256 /\ 0 <= r0 < 256) /\
     transfer32 this v w =
       (r3 * 2 ^ 24 + r2 * 2 ^ 16 + r1 * 2 ^ 8 + r0,
        mkWorld (wire w ++ window this spi
                   [Transfer spi (v / 2 ^ 24 mod 256) r3;
                    Transfer spi (v / 2 ^ 16 mod 256) r2;
                    Transfer spi (v / 2 ^ 8 mod 256) r1;
                    Transfer spi (v mod 256) r0])
                (ram w)) /\
     (r3 = v / 2 ^ 24 mod 256 -> r2 = v / 2 ^ 16 mod 256 ->
      r1 = v / 2 ^ 8 mod 256 -> r0 = v mod 256 ->
      fst (transfer32 this v w) = v)) /\
  (0 <= v < 2 ^ 16 ->
   exists r1 r0 : Z,
     (0 <= r1 < 256 /\ 0 <= r0 < 256) /\
     transfer16 this v w =
       (r1 * 2 ^ 8 + r0,
        mkWorld (wire w ++ window this spi
                   [Transfer spi (v / 2 ^ 8 mod 256) r1;
                    Transfer spi (v mod 256) r0])
                (ram w)) /\
     (r1 = v / 2 ^ 8 mod 256 -> r0 = v mod 256 ->
      fst (transfer16 this v w) = v)).
Proof.
  intros Hinit Hspi.
  destruct this as [spi' cs speed mode width init], w as [tr mem].
  cbn [_initialized _spi] in Hinit, Hspi. subst init spi'.
  split; intros Hv.
  - run_method.
    rewrite !byte_of_word by lia. rewrite low_byte_of_word.
    match goal with
    | |- context [Transfer spi (v / 2 ^ 24 mod 256) ?a ::
                  Transfer spi (v / 2 ^ 16 mod 256) ?b ::
                  Transfer spi (v / 2 ^ 8 mod 256) ?c ::
                  Transfer spi (v mod 256) ?d :: _] =>
        exists a, b, c, d
    end.
    split; [repeat split; apply u8_range |].
    rewrite assemble32 by apply u8_range.
    split; [reflexivity |].
    intros E3 E2 E1 E0. cbn [fst]. rewrite E0, E1, E2, E3.
    apply bytes_of_word32. exact Hv.
  - run_method.
    rewrite !byte_of_word by lia. rewrite low_byte_of_word.
    match goal with
    | |- context [Transfer spi (v / 2 ^ 8 mod 256) ?c ::
                  Transfer spi (v mod 256) ?d :: _] =>
        exists c, d
    end.
    split; [repeat split; apply u8_range |].
    rewrite assemble16 by apply u8_range.
    split; [reflexivity |].
    intros E1 E0. cbn [fst]. rewrite E0, E1.
    apply bytes_of_word16. exact Hv.
Qed.

(** ** The handle's own state across calls *)

(** The handle a call leaves behind. *)
Lemma invoke_this (c : Call) (this : PapilioSPI) (w : World) :
  snd (fst (invoke c this w)) =
  match c with
  | Call_begin spi cs_pin speed mode => mkPapilioSPI spi cs_pin speed mode 8 true
  | Call_end => end_ this
  | Call_setBitWidth width => setBitWidth this width
  | Call_setSpeed hz => setSpeed this hz
  | Call_setMode mode => setMode this mode
  | _ => this
  end.
Proof.
  destruct c; cbn [invoke]; unfold bind, ret; try reflexivity;
    match goal with
    | |- context [match ?x with _ => _ end] => destruct x; reflexivity
    end.
Qed.

Lemma invoke_initialized (c : Call) (this : PapilioSPI) (w : World) :
  _initialized (snd (fst (invoke c this w))) = begun [c] (_initialized this).
Proof.
  rewrite invoke_this. destruct c; try reflexivity.
  - unfold setBitWidth.
    destruct ((width =? 8) || (width =? 16) || (width =? 32)); reflexivity.
  - unfold setMode. destruct (mode <=? SPI_MODE3); reflexivity.
Qed.

Lemma run_cons (c : Call) (cs : list Call) (this : PapilioSPI) (w : World) :
  run (c :: cs) this w =
  run cs (snd (fst (invoke c this w))) (snd (invoke c this w)).
Proof.
  cbn [run]. unfold bind. destruct (invoke c this w) as [[v this'] w']. reflexivity.
Qed.

Lemma run_initialized (cs : list Call) :
  forall (this : PapilioSPI) (w : World),
    _initialized (fst (run cs this w)) = begun cs (_initialized this).
Proof.
  induction cs as [| c cs IH]; intros this w.
  - reflexivity.
  - rewrite run_cons, IH, invoke_initialized.
    destruct c; reflexivity.
Qed.

Lemma not_initialized_inert (this : PapilioSPI) (w : World) :
  _initialized this = false ->
  forall (data : Z) (txBuf rxBuf : option Z) (len : Z),
    transfer8 this data w = (0, w) /\
    transfer16 this data w = (0, w) /\
    transfer32 this data w = (0, w) /\
    transferBurst this txBuf rxBuf len w = (tt, w).
Proof.
  intros Hinit data txBuf rxBuf len.
  unfold transfer8, transfer16, transfer32, transferBurst.
  rewrite Hinit. repeat split; reflexivity.
Qed.

(** ** Transfers on a handle that is not initialized *)

(** C2. On a handle whose [begin] was never called, or whose last [begin]
    was followed by [end], the three word transfers return zero and leave
    the world as it was, and so does [transferBurst]: nothing is put on the
    wire and no byte of RAM, the receive buffer included, changes. *)
Theorem C2_not_initialized_returns_zero (cs : list Call) (w0 : World) :
  begun cs false = false ->
  forall (w : World) (data : Z) (txBuf rxBuf : option Z) (len : Z),
    transfer8 (fst (run cs PapilioSPI_ctor w0)) data w = (0, w) /\
    transfer16 (fst (run cs PapilioSPI_ctor w0)) data w = (0, w) /\
    transfer32 (fst (run cs PapilioSPI_ctor w0)) data w = (0, w) /\
    transferBurst (fst (run cs PapilioSPI_ctor w0)) txBuf rxBuf len w = (tt, w).
Proof.
  intros Hcs w data txBuf rxBuf len.
  apply not_initialized_inert.
  rewrite run_initialized. exact Hcs.
Qed.

(** ** The empty burst *)

(** C5. [transferBurst] with [len == 0] leaves the world as it was, for
    every handle and every pair of buffers: no exchange, no write, no
    settings applied and no select-line edge. *)
Theorem C5_empty_burst_is_noop (this : PapilioSPI) (txBuf rxBuf : option Z) (w : World) :
  transferBurst this txBuf rxBuf 0 w = (tt, w).
Proof.
  unfold transferBurst.
  destruct (_initialized this), (_spi this); reflexivity.
Qed.

(** ** Configuration setters *)

(** C6. [setBitWidth] keeps the handle as it is for a width other than 8,
    16 and 32, and [setMode] keeps it as it is for a mode above
    [SPI_MODE3]; with a supported argument each stores it in its field and
    changes no other.  Both return nothing. *)
Theorem C6_setters_ignore_unsupported (this : PapilioSPI) (arg : Z) :
  (arg <> 8 -> arg <> 16 -> arg <> 32 -> setBitWidth this arg = this) /\
  (SPI_MODE3 < arg -> setMode this arg = this) /\
  (arg = 8 \/ arg = 16 \/ arg = 32 ->
   setBitWidth this arg =
   mkPapilioSPI (_spi this) (_cs this) (_speed this) (_mode this) arg
                (_initialized this)) /\
  (arg <= SPI_MODE3 ->
   setMode this arg =
   mkPapilioSPI (_spi this) (_cs this) (_speed this) arg (_bitWidth this)
                (_initialized this)).
Proof.
  unfold setBitWidth, setMode. repeat split.
  - intros H8 H16 H32.
    apply Z.eqb_neq in H8, H16, H32. rewrite H8, H16, H32. reflexivity.
  - intros Hm. apply Z.leb_gt in Hm. rewrite Hm. reflexivity.
  - intros [-> | [-> | ->]]; reflexivity.
  - intros Hm. apply Z.leb_le in Hm. rewrite Hm. reflexivity.
Qed.

(** ** Status probes *)

(** C7, as the code has it.  [rxAvailable] returns 0 and [txReady] returns
    true in every state, touching nothing.  [isReady] returns false on a
    handle that is not initialized or has no driver, touching nothing;
    otherwise it exchanges the byte 0xA5 as [transfer8] does and returns
    true whatever comes back. *)
Theorem C7_status_probes (this : PapilioSPI) (w : World) :
  rxAvailable this w = (0, w) /\
  txReady this w = (true, w) /\
  isReady this w =
    (_initialized this && match _spi this with Some _ => true | None => false end,
     snd (transfer8 this 165 w)).
Proof.
  repeat split.
  destruct this as [spi cs speed mode width init].
  destruct init, spi; reflexivity.
Qed.

(** ** Initialization *)

(** C8. [begin] returns true for every argument, after configuring the
    select pin as an output and driving it high, and the handle it leaves
    holds the arguments, width 8, and is initialized. *)
Theorem C8_begin_succeeds (this : PapilioSPI) (spi : option SPIClass)
    (cs_pin speed mode : Z) (w : World) :
  begin this spi cs_pin speed mode w =
    ((true, mkPapilioSPI spi cs_pin speed mode 8 true),
     mkWorld (wire w ++ [PinMode cs_pin OUTPUT; DigitalWrite cs_pin HIGH]) (ram w)) /\
  fst (fst (begin this spi cs_pin speed mode w)) = true /\
  _initialized (snd (fst (begin this spi cs_pin speed mode w))) = true.
Proof.
  assert (E : begin this spi cs_pin speed mode w =
    ((true, mkPapilioSPI spi cs_pin speed mode 8 true),
     mkWorld (wire w ++ [PinMode cs_pin OUTPUT; DigitalWrite cs_pin HIGH]) (ram w))).
  { destruct w as [tr mem]. run_method. reflexivity. }
  rewrite E. repeat split.
Qed.

(** ** The word width is never read *)

Lemma methods_same_but_width (a b : PapilioSPI) :
  same_but_width a b ->
  (forall data, transfer8 a data = transfer8 b data) /\
  (forall data, transfer16 a data = transfer16 b data) /\
  (forall data, transfer32 a data = transfer32 b data) /\
  (forall txBuf rxBuf len,
     transferBurst a txBuf rxBuf len = transferBurst b txBuf rxBuf len) /\
  readFifo a = readFifo b /\
  (forall data, writeFifo a data = writeFifo b data) /\
  isReady a = isReady b.
Proof.
  destruct a as [spi cs speed mode wa init], b as [spi' cs' speed' mode' wb init'].
  unfold same_but_width. cbn [_spi _cs _speed _mode _initialized].
  intros (<- & <- & <- & <- & <-).
  repeat split.
Qed.

Lemma invoke_same_but_width (a b : PapilioSPI) (c : Call) (w : World) :
  same_but_width a b ->
  fst (fst (invoke c a w)) = fst (fst (invoke c b w)) /\
  snd (invoke c a w) = snd (invoke c b w) /\
  same_but_width (snd (fst (invoke c a w))) (snd (fst (invoke c b w))).
Proof.
  intros Hab.
  destruct (methods_same_but_width a b Hab) as (E8 & E16 & E32 & EB & ER & EW & EI).
  assert (Hab' := Hab).
  destruct Hab' as (Hspi & Hcs & Hspeed & Hmode & Hinit).
  destruct c; cbn [invoke];
    try (repeat split; (reflexivity || assumption));
    rewrite ?E8, ?E16, ?E32, ?EB, ?ER, ?EW, ?EI; unfold bind, ret;
    try match goal with
        | |- context [match ?x with _ => _ end] =>
            destruct x; repeat split; assumption
        end;
    cbn [fst snd]; repeat split.
  all: unfold setBitWidth, setMode;
    match goal with
    | |- context [if ?c then _ else _] => destruct c
    end;
    cbn [_spi _cs _speed _mode _initialized]; (reflexivity || assumption).
Qed.

(** C9. Two handles that agree on every field but the stored word width
    behave alike: each of the four transfers, and every other public call,
    returns the same value and leaves the same world (the same bytes on the
    wire, the same RAM) on both, and the two handles still agree on every
    field but the width afterwards. *)
Theorem C9_width_not_observable (a b : PapilioSPI) :
  same_but_width a b ->
  forall (w : World) (data : Z) (txBuf rxBuf : option Z) (len : Z) (c : Call),
    transfer8 a data w = transfer8 b data w /\
    transfer16 a data w = transfer16 b data w /\
    transfer32 a data w = transfer32 b data w /\
    transferBurst a txBuf rxBuf len w = transferBurst b txBuf rxBuf len w /\
    fst (fst (invoke c a w)) = fst (fst (invoke c b w)) /\
    snd (invoke c a w) = snd (invoke c b w) /\
    same_but_width (snd (fst (invoke c a w))) (snd (fst (invoke c b w))).
Proof.
  intros Hab w data txBuf rxBuf len c.
  pose proof (invoke_same_but_width a b c w Hab) as Hc.
  destruct a as [spi cs speed mode wa init], b as [spi' cs' speed' mode' wb init'].
  unfold same_but_width in Hab. cbn [_spi _cs _speed _mode _initialized] in Hab.
  destruct Hab as (<- & <- & <- & <- & <-).
  repeat split; try apply Hc.
Qed.

(** ** FIFO convenience calls *)

(** C10. [readFifo] is [transfer8] of the byte 0x00: the same byte returned
    and the same world left.  [writeFifo] of [d] leaves the world that
    [transfer8] of [d] leaves and returns nothing; neither changes the
    handle. *)
Theorem C10_fifo_is_transfer8 (this : PapilioSPI) (d : Z) (w : World) :
  readFifo this w = transfer8 this 0 w /\
  writeFifo this d w = (tt, snd (transfer8 this d w)) /\
  snd (fst (invoke Call_readFifo this w)) = this /\
  snd (fst (invoke (Call_writeFifo d) this w)) = this.
Proof.
  unfold readFifo, writeFifo, invoke, bind, ret, readFifo, writeFifo, bind, ret.
  destruct (transfer8 this 0 w) as [r0 w0'].
  destruct (transfer8 this d w) as [r w'].
  repeat split.
Qed.

(** ** Counting exchanges *)

Lemma exchange_count_app (tr tr' : list Event) :
  exchange_count (tr ++ tr') = (exchange_count tr + exchange_count tr')%nat.
Proof. unfold exchange_count. rewrite filter_app, length_app. reflexivity. Qed.

Lemma exchange_count_exchanges (spi : SPIClass) (txs rxs : list Z) :
  length txs = length rxs ->
  exchange_count (exchanges spi txs rxs) = length rxs.
Proof.
  revert rxs. induction txs as [| t txs IH]; intros [| r rxs] Hlen;
    try discriminate; [reflexivity |].
  injection Hlen as Hlen. unfold exchange_count, exchanges in *.
  cbn. f_equal. apply IH. exact Hlen.
Qed.

Lemma exchange_count_window (this : PapilioSPI) (spi : SPIClass) (body : list Event) :
  exchange_count (window this spi body) = exchange_count body.
Proof.
  unfold window. rewrite !exchange_count_app. cbn. lia.
Qed.

(** ** The burst loop *)

(** One iteration of the loop at index [i], then the rest. *)
Lemma burst_loop_step (spi : SPIClass) (txBuf rxBuf : option Z) (i : Z) (n : nat)
    (w : World) :
  let tx := match txBuf with Some q => u8 (ram w (q + i)) | None => 0 end in
  let rx := u8 (dev (wire w) spi tx) in
  burst_loop spi txBuf rxBuf i (S n) w =
  burst_loop spi txBuf rxBuf (i + 1) n
    (mkWorld (wire w ++ [Transfer spi tx rx])
             (match rxBuf with
              | Some p => fun a => if a =? p + i then rx else ram w a
              | None => ram w
              end)).
Proof. destruct txBuf, rxBuf; reflexivity. Qed.

(** What [n] iterations from index [i] do: [n] exchanges on the wire; zeros
    sent when there is no send buffer; RAM untouched when there is no
    receive buffer, and otherwise the [n] received bytes stored at
    [p + i .. p + i + n - 1] and nothing else changed. *)
Lemma burst_loop_spec (spi : SPIClass) (txBuf rxBuf : option Z) (n : nat) :
  forall (i : Z) (w : World),
  exists txs rxs : list Z,
    length txs = n /\ length rxs = n /\
    Forall (fun b => 0 <= b < 256) rxs /\
    wire (snd (burst_loop spi txBuf rxBuf i n w))
      = wire w ++ exchanges spi txs rxs /\
    (txBuf = None -> txs = repeat 0 n) /\
    (rxBuf = None -> ram (snd (burst_loop spi txBuf rxBuf i n w)) = ram w) /\
    (forall p, rxBuf = Some p ->
       (forall k, (k < n)%nat ->
          ram (snd (burst_loop spi txBuf rxBuf i n w)) (p + i + Z.of_nat k)
            = nth k rxs 0) /\
       (forall a, a < p + i \/ p + i + Z.of_nat n <= a ->
          ram (snd (burst_loop spi txBuf rxBuf i n w)) a = ram w a)).
Proof.
  induction n as [| n IH]; intros i w.
  - exists [], []. cbn. rewrite app_nil_r.
    repeat split; auto; intros; lia.
  - rewrite burst_loop_step.
    set (tx := match txBuf with Some q => u8 (ram w (q + i)) | None => 0 end).
    set (rx := u8 (dev (wire w) spi tx)).
    set (w1 := mkWorld _ _).
    destruct (IH (i + 1) w1) as (txs & rxs & Ht & Hr & Hb & Hw & Hz & Hn & Hs).
    exists (tx :: txs), (rx :: rxs).
    split; [cbn; congruence |]. split; [cbn; congruence |].
    split; [constructor; [apply u8_range | exact Hb] |].
    split; [rewrite Hw; subst w1; cbn; rewrite <- app_assoc; reflexivity |].
    split; [intros ->; cbn; f_equal; apply Hz; reflexivity |].
    split; [intros ->; rewrite Hn by reflexivity; reflexivity |].
    intros p ->. destruct (Hs p eq_refl) as [Hin Hout]. split.
    + intros [| k] Hk.
      * rewrite Hout by lia. subst w1. cbn.
        replace (p + i + 0) with (p + i) by lia. rewrite Z.eqb_refl. reflexivity.
      * replace (p + i + Z.of_nat (S k)) with (p + (i + 1) + Z.of_nat k) by lia.
        rewrite Hin by lia. reflexivity.
    + intros a Ha. rewrite Hout by lia. subst w1. cbn.
      destruct (Z.eqb_spec a (p + i)); [lia | reflexivity].
Qed.

(** A burst on an initialized link with [len != 0]: the loop runs between
    the opening and the closing calls of one transaction window. *)
Lemma transferBurst_window (this : PapilioSPI) (spi : SPIClass)
    (txBuf rxBuf : option Z) (len : Z) (w : World) :
  _initialized this = true ->
  _spi this = Some spi ->
  len <> 0 ->
  transferBurst this txBuf rxBuf len w =
    (tt,
     mkWorld
       (wire (snd (burst_loop spi txBuf rxBuf 0 (Z.to_nat len)
                     (mkWorld (wire w ++ window_open this spi) (ram w))))
        ++ window_close this spi)
       (ram (snd (burst_loop spi txBuf rxBuf 0 (Z.to_nat len)
                    (mkWorld (wire w ++ window_open this spi) (ram w)))))).
Proof.
  intros Hinit Hspi Hlen.
  destruct this as [spi' cs speed mode width init], w as [tr mem].
  cbn [_initialized _spi] in Hinit, Hspi. subst init spi'.
  apply Z.eqb_neq in Hlen.
  unfold transferBurst. cbn [_initialized _spi]. rewrite Hlen.
  unfold _beginTransaction, _endTransaction, _csLow, _csHigh,
    spi_beginTransaction, spi_endTransaction, digitalWrite, delayMicroseconds,
    emit, bind, window_open, window_close.
  cbn [_spi _cs _speed _mode wire ram].
  replace (((tr ++ [BeginTransaction spi (mkSPISettings speed MSBFIRST mode)])
            ++ [DigitalWrite cs LOW]) ++ [DelayMicroseconds 1])
    with (tr ++ [BeginTransaction spi (mkSPISettings speed MSBFIRST mode);
                 DigitalWrite cs LOW; DelayMicroseconds 1])
    by (rewrite <- !app_assoc; reflexivity).
  destruct (burst_loop spi txBuf rxBuf 0 (Z.to_nat len) _) as [[] [tr2 mem2]].
  cbn [snd wire ram]. rewrite <- !app_assoc. reflexivity.
Qed.

(** ** Burst transfers *)

(** C4. On an initialized link (the flag set and a driver stored),
    [transferBurst] with [len > 0] makes exactly [len] exchanges inside one
    transaction window.  Without a send buffer every byte sent is 0x00.
    Without a receive buffer RAM is left as it was; with one at [p], the
    bytes received are stored, in order, at [p .. p + len - 1] and no other
    byte of RAM changes. *)
Theorem C4_burst_exchanges_len_bytes (this : PapilioSPI) (spi : SPIClass)
    (txBuf rxBuf : option Z) (len : Z) (w : World) :
  _initialized this = true ->
  _spi this = Some spi ->
  0 < len ->
  exists txs rxs : list Z,
    Z.of_nat (length txs) = len /\ Z.of_nat (length rxs) = len /\
    Forall (fun b => 0 <= b < 256) rxs /\
    wire (snd (transferBurst this txBuf rxBuf len w))
      = wire w ++ window this spi (exchanges spi txs rxs) /\
    Z.of_nat (exchange_count (wire (snd (transferBurst this txBuf rxBuf len w))))
      = Z.of_nat (exchange_count (wire w)) + len /\
    (txBuf = None -> txs = repeat 0 (Z.to_nat len)) /\
    (rxBuf = None -> ram (snd (transferBurst this txBuf rxBuf len w)) = ram w) /\
    (forall p, rxBuf = Some p ->
       (forall k, 0 <= k < len ->
          ram (snd (transferBurst this txBuf rxBuf len w)) (p + k)
            = nth (Z.to_nat k) rxs 0) /\
       (forall a, a < p \/ p + len <= a ->
          ram (snd (transferBurst this txBuf rxBuf len w)) a = ram w a)).
Proof.
  intros Hinit Hspi Hlen.
  rewrite (transferBurst_window this spi txBuf rxBuf len w Hinit Hspi) by lia.
  cbn [snd wire ram].
  destruct (burst_loop_spec spi txBuf rxBuf (Z.to_nat len) 0
              (mkWorld (wire w ++ window_open this spi) (ram w)))
    as (txs & rxs & Ht & Hr & Hb & Hw & Hz & Hn & Hs).
  cbn [wire ram] in Hw, Hn, Hs.
  exists txs, rxs.
  assert (Hwire : wire (snd (burst_loop spi txBuf rxBuf 0 (Z.to_nat len)
                               (mkWorld (wire w ++ window_open this spi) (ram w))))
                  ++ window_close this spi
                  = wire w ++ window this spi (exchanges spi txs rxs)).
  { rewrite Hw. unfold window. rewrite <- !app_assoc. reflexivity. }
  split; [lia |]. split; [lia |]. split; [exact Hb |].
  split; [exact Hwire |].
  split.
  { rewrite Hwire, exchange_count_app, exchange_count_window,
      exchange_count_exchanges by congruence. lia. }
  split; [exact Hz |].
  split; [exact Hn |].
  intros p Hrx. destruct (Hs p Hrx) as [Hin Hout]. split.
  - intros k Hk. specialize (Hin (Z.to_nat k)).
    replace (p + 0 + Z.of_nat (Z.to_nat k)) with (p + k) in Hin by lia.
    apply Hin. lia.
  - intros a Ha. apply Hout. lia.
Qed.

(** ** The select line *)

Lemma line_app (pin : Z) (tr ev : list Event) (lvl : option Level) :
  line pin (tr ++ ev) lvl = line pin ev (line pin tr lvl).
Proof. unfold line. apply fold_left_app. Qed.

(** Byte exchanges move no pin. *)
Lemma line_exchanges (pin : Z) (body : list Event) :
  forallb is_exchange body = true ->
  forall lvl, line pin body lvl = lvl.
Proof.
  induction body as [| e body IH]; intros Hb lvl; [reflexivity |].
  cbn in Hb. apply andb_true_iff in Hb as [He Hb].
  destruct e; try discriminate. cbn. apply IH. exact Hb.
Qed.

(** A whole window leaves its select line high and every other pin alone. *)
Lemma line_window (pin : Z) (this : PapilioSPI) (spi : SPIClass)
    (body : list Event) (lvl : option Level) :
  forallb is_exchange body = true ->
  line pin (window this spi body) lvl =
  if _cs this =? pin then Some HIGH else lvl.
Proof.
  intros Hb. unfold window. rewrite !line_app.
  rewrite (line_exchanges pin body Hb).
  cbn. destruct (_cs this =? pin); reflexivity.
Qed.

Lemma forallb_exchanges (spi : SPIClass) (txs rxs : list Z) :
  forallb is_exchange (exchanges spi txs rxs) = true.
Proof.
  unfold exchanges. induction (combine txs rxs) as [| p l IH]; [reflexivity |].
  cbn. exact IH.
Qed.

Lemma snd_bind_ret {A B : Type} (c : HW A) (f : A -> B) (w : World) :
  snd ((r <- c ;; ret (f r)) w) = snd (c w).
Proof. unfold bind, ret. destruct (c w). reflexivity. Qed.

Lemma word_transfer_footprint (this : PapilioSPI) (data : Z) (w : World) :
  (exists ev, wire (snd (transfer8 this data w)) = wire w ++ ev /\
              nothing_or_window this ev) /\
  (exists ev, wire (snd (transfer16 this data w)) = wire w ++ ev /\
              nothing_or_window this ev) /\
  (exists ev, wire (snd (transfer32 this data w)) = wire w ++ ev /\
              nothing_or_window this ev).
Proof.
  destruct this as [spi cs speed mode width init], w as [tr mem].
  destruct init, spi as [spi |];
    try (repeat split; exists []; cbn; rewrite app_nil_r;
         (split; [reflexivity | left; reflexivity])).
  repeat split; run_method; cbn [snd];
    (eexists; split; [reflexivity |]); right; exists spi.
  - eexists [_]. repeat split.
  - eexists [_; _]. repeat split.
  - eexists [_; _; _; _]. repeat split.
Qed.

Lemma transferBurst_footprint (this : PapilioSPI) (txBuf rxBuf : option Z)
    (len : Z) (w : World) :
  exists ev, wire (snd (transferBurst this txBuf rxBuf len w)) = wire w ++ ev /\
             nothing_or_window this ev.
Proof.
  destruct (_initialized this) eqn:Hinit, (_spi this) as [spi |] eqn:Hspi,
           (Z.eq_dec len 0) as [-> | Hlen];
    try (exists []; unfold transferBurst; rewrite Hinit; try rewrite Hspi; cbn;
         rewrite app_nil_r; (split; [reflexivity | left; reflexivity])).
  rewrite (transferBurst_window this spi txBuf rxBuf len w Hinit Hspi Hlen).
  destruct (burst_loop_spec spi txBuf rxBuf (Z.to_nat len) 0
              (mkWorld (wire w ++ window_open this spi) (ram w)))
    as (txs & rxs & _ & _ & _ & Hw & _).
  cbn [snd wire] in *. rewrite Hw.
  exists (window this spi (exchanges spi txs rxs)). split.
  - unfold window. rewrite <- !app_assoc. reflexivity.
  - right. exists spi, (exchanges spi txs rxs).
    repeat split; try assumption. apply forallb_exchanges.
Qed.

(** What any public call puts on the wire. *)
Lemma invoke_footprint (c : Call) (this : PapilioSPI) (w : World) :
  exists ev, wire (snd (invoke c this w)) = wire w ++ ev /\
    (nothing_or_window this ev \/
     exists spi cs_pin speed mode,
       c = Call_begin spi cs_pin speed mode /\
       ev = [PinMode cs_pin OUTPUT; DigitalWrite cs_pin HIGH]).
Proof.
  destruct (word_transfer_footprint this 0 w) as (F0 & _).
  destruct (word_transfer_footprint this 165 w) as (F165 & _).
  destruct c; cbn [invoke]; rewrite ?snd_bind_ret;
    try (exists []; cbn; rewrite app_nil_r; split;
         [reflexivity | left; left; reflexivity]).
  - exists [PinMode cs_pin OUTPUT; DigitalWrite cs_pin HIGH]. split.
    + destruct w as [tr mem]. run_method. reflexivity.
    + right. exists spi, cs_pin, speed, mode. split; reflexivity.
  - destruct (word_transfer_footprint this data w) as ((ev & E & H) & _).
    exists ev. split; [exact E | left; exact H].
  - destruct (word_transfer_footprint this data w) as (_ & (ev & E & H) & _).
    exists ev. split; [exact E | left; exact H].
  - destruct (word_transfer_footprint this data w) as (_ & _ & (ev & E & H)).
    exists ev. split; [exact E | left; exact H].
  - destruct (transferBurst_footprint this txBuf rxBuf len w) as (ev & E & H).
    exists ev. split; [exact E | left; exact H].
  - destruct F0 as (ev & E & H). exists ev. split; [exact E | left; exact H].
  - unfold writeFifo. rewrite (snd_bind_ret _ (fun _ => tt)).
    destruct (word_transfer_footprint this data w) as ((ev & E & H) & _).
    exists ev. split; [exact E | left; exact H].
  - destruct F165 as (ev & E & H).
    unfold isReady.
    destruct (_initialized this) eqn:Hinit, (_spi this) eqn:Hspi;
      try (exists []; cbn; rewrite app_nil_r; split;
           [reflexivity | left; left; reflexivity]).
    rewrite (snd_bind_ret _ (fun _ => true)).
    exists ev. split; [exact E | left; exact H].
Qed.

(** A call leaves every pin where it was or high. *)
Lemma invoke_line (c : Call) (this : PapilioSPI) (w : World) (pin : Z)
    (lvl : option Level) :
  line pin (wire (snd (invoke c this w))) lvl = line pin (wire w) lvl \/
  line pin (wire (snd (invoke c this w))) lvl = Some HIGH.
Proof.
  destruct (invoke_footprint c this w) as (ev & -> & H).
  rewrite line_app.
  destruct H as [[-> | (spi & body & _ & _ & -> & Hb)]
                | (spi & cs_pin & speed & mode & _ & ->)].
  - left. reflexivity.
  - rewrite (line_window pin this spi body _ Hb).
    destruct (_cs this =? pin); [right | left]; reflexivity.
  - cbn. destruct (cs_pin =? pin); [right | left]; reflexivity.
Qed.

Lemma invoke_begin_idle (this : PapilioSPI) (w : World)
    (spi : option SPIClass) (cs_pin speed mode : Z) (lvl : option Level) :
  line (_cs (snd (fst (invoke (Call_begin spi cs_pin speed mode) this w))))
       (wire (snd (invoke (Call_begin spi cs_pin speed mode) this w))) lvl
  = Some HIGH.
Proof.
  destruct w as [tr mem]. cbn [invoke]. run_method. cbn [fst snd].
  rewrite line_app. cbn. rewrite Z.eqb_refl. reflexivity.
Qed.

Lemma invoke_keeps_idle (c : Call) (this : PapilioSPI) (w : World)
    (lvl : option Level) :
  line (_cs this) (wire w) lvl = Some HIGH ->
  line (_cs (snd (fst (invoke c this w)))) (wire (snd (invoke c this w))) lvl
  = Some HIGH.
Proof.
  intros Hidle.
  assert (Hcs : (exists spi cs_pin speed mode, c = Call_begin spi cs_pin speed mode)
                \/ _cs (snd (fst (invoke c this w))) = _cs this).
  { rewrite invoke_this. destruct c; try (right; reflexivity).
    - left. eauto.
    - right. unfold setBitWidth.
      destruct ((width =? 8) || (width =? 16) || (width =? 32)); reflexivity.
    - right. unfold setMode. destruct (mode <=? SPI_MODE3); reflexivity. }
  destruct Hcs as [(spi & cs_pin & speed & mode & ->) | ->].
  - apply invoke_begin_idle.
  - destruct (invoke_line c this w (_cs this) lvl) as [E | E];
      rewrite E; [exact Hidle | reflexivity].
Qed.

Lemma run_keeps_idle (cs : list Call) (lvl : option Level) :
  forall (this : PapilioSPI) (w : World),
    line (_cs this) (wire w) lvl = Some HIGH ->
    line (_cs (fst (run cs this w))) (wire (snd (run cs this w))) lvl = Some HIGH.
Proof.
  induction cs as [| c cs IH]; intros this w Hidle; [exact Hidle |].
  rewrite run_cons. apply IH. apply invoke_keeps_idle. exact Hidle.
Qed.

(** C3. A transfer entry point puts on the wire either nothing or one whole
    window: the settings (stored rate, MSB first, stored mode) applied, then
    the select line driven low, then only byte exchanges, then the select
    line driven high, then the bus released.  Every public call leaves
    every pin either at the level it had or high.  After any sequence of
    calls that holds a [begin], the handle's select line is high. *)
Theorem C3_select_line_released :
  (forall (c : Call) (this : PapilioSPI) (w : World),
     is_transfer c = true ->
     exists ev : list Event,
       wire (snd (invoke c this w)) = wire w ++ ev /\
       (ev = [] \/
        exists (spi : SPIClass) (body : list Event),
          _initialized this = true /\ _spi this = Some spi /\
          ev = [BeginTransaction spi (mkSPISettings (_speed this) MSBFIRST (_mode this));
                DigitalWrite (_cs this) LOW;
                DelayMicroseconds 1]
               ++ body ++
               [DelayMicroseconds 1;
                DigitalWrite (_cs this) HIGH;
                EndTransaction spi] /\
          forallb is_exchange body = true)) /\
  (forall (c : Call) (this : PapilioSPI) (w : World) (pin : Z) (lvl : option Level),
     line pin (wire (snd (invoke c this w))) lvl = line pin (wire w) lvl \/
     line pin (wire (snd (invoke c this w))) lvl = Some HIGH) /\
  (forall (cs : list Call) (this : PapilioSPI) (w : World) (lvl : option Level),
     has_begin cs = true ->
     line (_cs (fst (run cs this w))) (wire (snd (run cs this w))) lvl = Some HIGH).
Proof.
  split; [| split].
  - intros c this w Hc.
    destruct (invoke_footprint c this w) as (ev & E & [H | H]).
    + exists ev. split; [exact E | exact H].
    + destruct H as (spi & cs_pin & speed & mode & -> & _). discriminate.
  - exact invoke_line.
  - induction cs as [| c cs IH]; intros this w lvl Hb; [discriminate |].
    rewrite run_cons.
    destruct c; try (apply IH; exact Hb).
    apply run_keeps_idle. apply invoke_begin_idle.
Qed.

(** * Further properties of the class *)

Lemma transferBurst_empty (this : PapilioSPI) (txBuf rxBuf : option Z)
    (w : World) :
  transferBurst this txBuf rxBuf 0 w = (tt, w).
Proof.
  unfold transferBurst.
  destruct (_initialized this), (_spi this); reflexivity.
Qed.



(** ** What each entry point puts on the wire *)

(** The word transfers, spelled out: on a ready handle one window around
    the bytes sent, on any other handle nothing at all. *)
Lemma word_transfer_emits (this : PapilioSPI) (data : Z) (w : World) :
  (if ready this
   then exists spi r,
          _spi this = Some spi /\
          wire (snd (transfer8 this data w))
            = wire w ++ window this spi (exchanges spi [data] [r])
   else snd (transfer8 this data w) = w) /\
  (if ready this
   then exists spi r1 r0,
          _spi this = Some spi /\
          wire (snd (transfer16 this data w))
            = wire w ++ window this spi
                (exchanges spi [Z.land (Z.shiftr data 8) 255; Z.land data 255]
                               [r1; r0])
   else snd (transfer16 this data w) = w) /\
  (if ready this
   then exists spi r3 r2 r1 r0,
          _spi this = Some spi /\
          wire (snd (transfer32 this data w))
            = wire w ++ window this spi
                (exchanges spi [Z.land (Z.shiftr data 24) 255;
                                Z.land (Z.shiftr data 16) 255;
                                Z.land (Z.shiftr data 8) 255; Z.land data 255]
                               [r3; r2; r1; r0])
   else snd (transfer32 this data w) = w).
Proof.
  destruct this as [spi cs speed mode width init], w as [tr mem].
  destruct init, spi as [spi |]; cbn [ready _initialized _spi andb];
    try (repeat split; reflexivity).
  repeat split; run_method; cbn [snd].
  - eexists spi, _. split; reflexivity.
  - eexists spi, _, _. split; reflexivity.
  - eexists spi, _, _, _, _. split; reflexivity.
Qed.

(** The word transfers never write RAM. *)
Lemma word_transfer_ram (this : PapilioSPI) (data : Z) (w : World) :
  ram (snd (transfer8 this data w)) = ram w /\
  ram (snd (transfer16 this data w)) = ram w /\
  ram (snd (transfer32 this data w)) = ram w.
Proof.
  destruct this as [spi cs speed mode width init], w as [tr mem].
  destruct init, spi as [spi |]; repeat split; reflexivity.
Qed.

Lemma transferBurst_not_ready (this : PapilioSPI) (txBuf rxBuf : option Z)
    (len : Z) (w : World) :
  ready this = false -> transferBurst this txBuf rxBuf len w = (tt, w).
Proof.
  unfold ready, transferBurst.
  destruct (_initialized this), (_spi this); try discriminate; reflexivity.
Qed.

Lemma ready_inv (this : PapilioSPI) :
  ready this = true ->
  _initialized this = true /\ exists spi, _spi this = Some spi.
Proof.
  unfold ready. destruct (_initialized this), (_spi this) as [spi |];
    try discriminate. intros _. split; [reflexivity | exists spi; reflexivity].
Qed.

(** Every public call, spelled out: the two pin calls of [begin], or
    nothing, or one window around as many exchanges as [exchanges_of]
    counts, all on the stored driver. *)
Lemma invoke_emits (c : Call) (this : PapilioSPI) (w : World) :
  exists ev, wire (snd (invoke c this w)) = wire w ++ ev /\
    ((exists spi cs_pin speed mode,
        c = Call_begin spi cs_pin speed mode /\
        ev = [PinMode cs_pin OUTPUT; DigitalWrite cs_pin HIGH]) \/
     (ev = [] /\ exchanges_of c this = 0%nat) \/
     (exists spi txs rxs,
        _spi this = Some spi /\
        length txs = exchanges_of c this /\ length rxs = exchanges_of c this /\
        ev = window this spi (exchanges spi txs rxs))).
Proof.
  assert (H8 : forall data,
    exists ev, wire (snd (transfer8 this data w)) = wire w ++ ev /\
      ((ev = [] /\ (if ready this then 1 else 0)%nat = 0%nat) \/
       (exists spi txs rxs,
          _spi this = Some spi /\
          length txs = (if ready this then 1 else 0)%nat /\
          length rxs = (if ready this then 1 else 0)%nat /\
          ev = window this spi (exchanges spi txs rxs)))).
  { intros data. destruct (word_transfer_emits this data w) as (H & _).
    destruct (ready this).
    - destruct H as (spi & r & Hspi & E). eexists. split; [exact E |].
      right. exists spi, [data], [r]. repeat split. exact Hspi.
    - exists []. rewrite H, app_nil_r. split; [reflexivity | left; split; reflexivity]. }
  destruct c; cbn [invoke]; rewrite ?snd_bind_ret; unfold exchanges_of;
    try (exists []; cbn [snd ret]; rewrite app_nil_r; split;
         [reflexivity | right; left; split; [reflexivity |];
                        destruct (ready this); reflexivity]).
  - exists [PinMode cs_pin OUTPUT; DigitalWrite cs_pin HIGH]. split.
    + destruct w as [tr mem]. run_method. reflexivity.
    + left. exists spi, cs_pin, speed, mode. split; reflexivity.
  - destruct (H8 data) as (ev & E & H). exists ev. split; [exact E | right; exact H].
  - destruct (word_transfer_emits this data w) as (_ & H & _).
    destruct (ready this).
    + destruct H as (spi & r1 & r0 & Hspi & E). eexists. split; [exact E |].
      right. right. eexists spi, [_; _], [r1; r0]. repeat split. exact Hspi.
    + exists []. rewrite H, app_nil_r.
      split; [reflexivity | right; left; split; reflexivity].
  - destruct (word_transfer_emits this data w) as (_ & _ & H).
    destruct (ready this).
    + destruct H as (spi & r3 & r2 & r1 & r0 & Hspi & E). eexists. split; [exact E |].
      right. right. eexists spi, [_; _; _; _], [r3; r2; r1; r0]. repeat split. exact Hspi.
    + exists []. rewrite H, app_nil_r.
      split; [reflexivity | right; left; split; reflexivity].
  - destruct (ready this) eqn:Hr.
    + destruct (ready_inv this Hr) as (Hinit & spi & Hspi).
      destruct (Z.eq_dec len 0) as [-> | Hlen].
      * exists []. rewrite transferBurst_empty, app_nil_r.
        split; [reflexivity | right; left; split; reflexivity].
      * rewrite (transferBurst_window this spi txBuf rxBuf len w Hinit Hspi Hlen).
        destruct (burst_loop_spec spi txBuf rxBuf (Z.to_nat len) 0
                    (mkWorld (wire w ++ window_open this spi) (ram w)))
          as (txs & rxs & Ht & Hrx & _ & Hw & _).
        cbn [snd wire] in *. rewrite Hw.
        exists (window this spi (exchanges spi txs rxs)). split.
        -- unfold window. rewrite <- !app_assoc. reflexivity.
        -- right. right. exists spi, txs, rxs. repeat split; assumption.
    + exists []. rewrite (transferBurst_not_ready this txBuf rxBuf len w Hr), app_nil_r.
      split; [reflexivity | right; left; split; reflexivity].
  - unfold readFifo.
    destruct (H8 0) as (ev & E & H). exists ev. split; [exact E | right; exact H].
  - unfold writeFifo. rewrite (snd_bind_ret _ (fun _ => tt)).
    destruct (H8 data) as (ev & E & H). exists ev. split; [exact E | right; exact H].
  - destruct (H8 165) as (ev & E & H).
    unfold isReady, ready in *.
    destruct (_initialized this), (_spi this);
      try (exists []; cbn [snd ret]; rewrite app_nil_r;
           split; [reflexivity | right; left; split; reflexivity]).
    rewrite (snd_bind_ret _ (fun _ => true)).
    exists ev. split; [exact E | right; exact H].
Qed.

(** ** Results fit their return types *)


(** ** The handle is a function of the calls *)

(** X2. The handle a call sequence leaves is [handle_after]: it depends on
    the calls and the handle it started from only, not on the peripheral's
    answers, the wire or RAM.  Only [begin], [end], [setBitWidth],
    [setSpeed] and [setMode] change a field. *)
Theorem run_handle (cs : list Call) :
  forall (this : PapilioSPI) (w : World),
    fst (run cs this w) = handle_after cs this.
Proof.
  induction cs as [| c cs IH]; intros this w; [reflexivity |].
  rewrite run_cons, IH, invoke_this. cbn [handle_after fold_left].
  destruct c; reflexivity.
Qed.

(** ** Counting exchanges over a call sequence *)

Lemma invoke_exchange_count (c : Call) (this : PapilioSPI) (w : World) :
  exchange_count (wire (snd (invoke c this w)))
  = (exchange_count (wire w) + exchanges_of c this)%nat.
Proof.
  destruct (invoke_emits c this w)
    as (ev & -> & [(spi & cs_pin & speed & mode & -> & ->)
                  | [[-> ->] | (spi & txs & rxs & _ & Ht & Hr & ->)]]);
    rewrite exchange_count_app.
  - unfold exchanges_of. destruct (ready this); reflexivity.
  - reflexivity.
  - rewrite exchange_count_window, exchange_count_exchanges by congruence.
    rewrite Hr. reflexivity.
Qed.

(** X3. The number of byte exchanges a call sequence adds to the wire is
    [exchanges_of_run]: one per [transfer8], [readFifo], [writeFifo] and
    [isReady], two per [transfer16], four per [transfer32] and [len] per
    [transferBurst], counted only while the handle is ready.  It does not
    depend on the data sent or on what the peripheral answers. *)
Theorem run_exchange_count (cs : list Call) :
  forall (this : PapilioSPI) (w : World),
    exchange_count (wire (snd (run cs this w)))
    = (exchange_count (wire w) + exchanges_of_run cs this)%nat.
Proof.
  induction cs as [| c cs IH]; intros this w.
  - cbn. lia.
  - rewrite run_cons, IH, invoke_exchange_count, invoke_this.
    cbn [exchanges_of_run].
    replace (match c with
             | Call_begin spi cs_pin speed mode =>
                 mkPapilioSPI spi cs_pin speed mode 8 true
             | Call_end => end_ this
             | Call_setBitWidth width => setBitWidth this width
             | Call_setSpeed hz => setSpeed this hz
             | Call_setMode mode => setMode this mode
             | _ => this
             end) with (next_handle c this) by (destruct c; reflexivity).
    lia.
Qed.

(** ** Nothing happens before [begin] *)

Lemma invoke_not_initialized (c : Call) (this : PapilioSPI) (w : World) :
  _initialized this = false ->
  (forall spi cs_pin speed mode, c <> Call_begin spi cs_pin speed mode) ->
  snd (invoke c this w) = w /\
  _initialized (snd (fst (invoke c this w))) = false.
Proof.
  intros Hinit Hc. split.
  - destruct (not_initialized_inert this w Hinit 0 None None 0) as (E0 & _).
    destruct c; cbn [invoke]; rewrite ?snd_bind_ret; try reflexivity.
    + exfalso. eapply Hc. reflexivity.
    + apply (f_equal snd (proj1 (not_initialized_inert this w Hinit data None None 0))).
    + apply (f_equal snd (proj1 (proj2 (not_initialized_inert this w Hinit data None None 0)))).
    + apply (f_equal snd (proj1 (proj2 (proj2
               (not_initialized_inert this w Hinit data None None 0))))).
    + apply (f_equal snd (proj2 (proj2 (proj2
               (not_initialized_inert this w Hinit 0 txBuf rxBuf len))))).
    + unfold readFifo. rewrite E0. reflexivity.
    + unfold writeFifo. rewrite (snd_bind_ret _ (fun _ => tt)).
      apply (f_equal snd (proj1 (not_initialized_inert this w Hinit data None None 0))).
    + unfold isReady. rewrite Hinit. reflexivity.
  - rewrite invoke_initialized.
    destruct c; cbn [begun]; try exact Hinit; try reflexivity.
    exfalso. eapply Hc. reflexivity.
Qed.

(** X4. On a handle that is not initialized (fresh from the constructor, or
    after [end]), no sequence of calls without a [begin] does anything to
    the world: nothing reaches the pins or the bus and RAM is untouched,
    and the handle stays uninitialized. *)
Theorem run_inert_until_begin (cs : list Call) :
  forall (this : PapilioSPI) (w : World),
    _initialized this = false ->
    has_begin cs = false ->
    snd (run cs this w) = w /\ _initialized (fst (run cs this w)) = false.
Proof.
  induction cs as [| c cs IH]; intros this w Hinit Hcs.
  - split; [reflexivity | exact Hinit].
  - rewrite run_cons.
    assert (Hc : forall spi cs_pin speed mode, c <> Call_begin spi cs_pin speed mode).
    { intros spi cs_pin speed mode ->. discriminate. }
    assert (Hcs' : has_begin cs = false) by (destruct c; (discriminate || exact Hcs)).
    destruct (invoke_not_initialized c this w Hinit Hc) as [Ew Ei].
    rewrite Ew. apply IH; assumption.
Qed.

(** ** The bus protocol is kept *)

Lemma phase_run_app (ph : Phase) (tr ev : list Event) :
  phase_run ph (tr ++ ev) =
  match phase_run ph tr with
  | Some ph' => phase_run ph' ev
  | None => None
  end.
Proof.
  revert ph. induction tr as [| e tr IH]; intros ph; [reflexivity |].
  cbn. destruct (phase_step ph e); [apply IH | reflexivity].
Qed.

Lemma phase_run_exchanges (spi : SPIClass) (cs : Z) (txs rxs : list Z) :
  phase_run (Selected spi cs) (exchanges spi txs rxs) = Some (Selected spi cs).
Proof.
  unfold exchanges. induction (combine txs rxs) as [| p l IH]; [reflexivity |].
  cbn. rewrite Z.eqb_refl. exact IH.
Qed.

Lemma phase_run_window (this : PapilioSPI) (spi : SPIClass) (txs rxs : list Z) :
  phase_run Idle (window this spi (exchanges spi txs rxs)) = Some Idle.
Proof.
  unfold window, window_open, window_close. cbn [app phase_run phase_step bitOrder].
  rewrite phase_run_app, phase_run_exchanges.
  cbn [phase_run phase_step window_close _cs]. rewrite Z.eqb_refl.
  cbn [phase_run phase_step]. rewrite Z.eqb_refl. reflexivity.
Qed.

Lemma invoke_keeps_protocol (c : Call) (this : PapilioSPI) (w : World) :
  phase_run Idle (wire w) = Some Idle ->
  phase_run Idle (wire (snd (invoke c this w))) = Some Idle.
Proof.
  intros Hw.
  destruct (invoke_emits c this w)
    as (ev & -> & [(spi & cs_pin & speed & mode & _ & ->)
                  | [[-> _] | (spi & txs & rxs & _ & _ & _ & ->)]]);
    rewrite phase_run_app, Hw.
  - reflexivity.
  - reflexivity.
  - apply phase_run_window.
Qed.

(** X5. Starting from an idle bus, the wire after any sequence of public
    calls is accepted by the protocol automaton and ends idle: windows
    never nest or stay open, each is begun with MSB-first settings, every
    byte exchange lies inside a window, on
    the bus that window began, after the setup delay that follows the
    select line going low and before the hold delay that precedes it going
    high, and the line released and the bus ended are the ones that were
    taken. *)
Theorem run_keeps_protocol (cs : list Call) :
  forall (this : PapilioSPI) (w : World),
    phase_run Idle (wire w) = Some Idle ->
    phase_run Idle (wire (snd (run cs this w))) = Some Idle.
Proof.
  induction cs as [| c cs IH]; intros this w Hw; [exact Hw |].
  rewrite run_cons. apply IH. apply invoke_keeps_protocol. exact Hw.
Qed.

(** ** RAM outside the receive buffer *)

Lemma invoke_ram_frame (c : Call) (this : PapilioSPI) (w : World) (a : Z) :
  (forall txBuf p len,
     c = Call_transferBurst txBuf (Some p) len -> a < p \/ p + len <= a) ->
  ram (snd (invoke c this w)) a = ram w a.
Proof.
  intros Hout.
  destruct c; cbn [invoke]; rewrite ?snd_bind_ret; try reflexivity.
  - rewrite (proj1 (word_transfer_ram this data w)). reflexivity.
  - rewrite (proj1 (proj2 (word_transfer_ram this data w))). reflexivity.
  - rewrite (proj2 (proj2 (word_transfer_ram this data w))). reflexivity.
  - destruct (ready this) eqn:Hr;
      [| rewrite (transferBurst_not_ready this txBuf rxBuf len w Hr); reflexivity].
    destruct (ready_inv this Hr) as (Hinit & spi & Hspi).
    destruct (Z.eq_dec len 0) as [-> | Hlen];
      [rewrite transferBurst_empty; reflexivity |].
    rewrite (transferBurst_window this spi txBuf rxBuf len w Hinit Hspi Hlen).
    destruct (burst_loop_spec spi txBuf rxBuf (Z.to_nat len) 0
                (mkWorld (wire w ++ window_open this spi) (ram w)))
      as (txs & rxs & _ & _ & _ & _ & _ & Hn & Hs).
    cbn [snd ram] in *.
    destruct rxBuf as [p |].
    + destruct (Hs p eq_refl) as [_ Hframe]. apply Hframe.
      specialize (Hout txBuf p len eq_refl). lia.
    + rewrite Hn by reflexivity. reflexivity.
  - unfold readFifo. rewrite (proj1 (word_transfer_ram this 0 w)). reflexivity.
  - unfold writeFifo. rewrite (snd_bind_ret _ (fun _ => tt)).
    rewrite (proj1 (word_transfer_ram this data w)). reflexivity.
  - unfold isReady. destruct (_initialized this), (_spi this); try reflexivity.
    rewrite (snd_bind_ret _ (fun _ => true)).
    rewrite (proj1 (word_transfer_ram this 165 w)). reflexivity.
Qed.

(** X6. The only RAM a call sequence can change is the receive buffer of
    one of its [transferBurst] calls: a byte at an address outside
    [p .. p + len - 1] for every burst with a receive buffer at [p] holds
    after the sequence what it held before. *)
Theorem run_ram_frame (cs : list Call) (a : Z) :
  (forall txBuf p len,
     In (Call_transferBurst txBuf (Some p) len) cs -> a < p \/ p + len <= a) ->
  forall (this : PapilioSPI) (w : World),
    ram (snd (run cs this w)) a = ram w a.
Proof.
  induction cs as [| c cs IH]; intros Hout this w; [reflexivity |].
  rewrite run_cons, IH.
  - apply invoke_ram_frame. intros txBuf p len ->. apply (Hout txBuf p len).
    left. reflexivity.
  - intros txBuf p len Hin. apply (Hout txBuf p len). right. exact Hin.
Qed.

(** ** What a burst sends *)

Lemma seq_succ_map (A : Type) (f : nat -> A) (n : nat) :
  map f (seq 0 (S n)) = f O :: map (fun k => f (S k)) (seq 0 n).
Proof.
  cbn [seq map]. f_equal. rewrite <- seq_shift, map_map. reflexivity.
Qed.

(** With a send buffer at [q], iteration [k] sends the byte the buffer held
    at [q + i + k] when the loop started, as long as no earlier iteration
    stored a received byte there. *)
Lemma burst_loop_sends (spi : SPIClass) (q : Z) (rxBuf : option Z) (n : nat) :
  (forall p, rxBuf = Some p ->
     forall j k : nat, (j < k < n)%nat -> p + Z.of_nat j <> q + Z.of_nat k) ->
  forall (i : Z) (w : World),
  exists rxs : list Z,
    length rxs = n /\
    wire (snd (burst_loop spi (Some q) rxBuf i n w))
      = wire w ++ exchanges spi
                    (map (fun k => u8 (ram w (q + i + Z.of_nat k))) (seq 0 n)) rxs.
Proof.
  induction n as [| n IH]; intros Hz i w.
  - exists []. cbn. rewrite app_nil_r. split; reflexivity.
  - rewrite burst_loop_step.
    set (rx := u8 (dev (wire w) spi (u8 (ram w (q + i))))).
    set (w1 := mkWorld _ _).
    assert (Hz' : forall p, rxBuf = Some p ->
              forall j k : nat, (j < k < n)%nat -> p + Z.of_nat j <> q + Z.of_nat k).
    { intros p Hp j k Hjk. specialize (Hz p Hp (S j) (S k)). lia. }
    destruct (IH Hz' (i + 1) w1) as (rxs & Hlen & Hw).
    exists (rx :: rxs). split; [cbn; congruence |].
    rewrite Hw, seq_succ_map. subst w1. cbn [wire ram].
    rewrite <- app_assoc. cbn [app exchanges combine map fst snd].
    replace (q + i + Z.of_nat 0) with (q + i) by lia.
    do 3 f_equal. unfold exchanges. do 2 f_equal.
    apply map_ext_in. intros k Hk. apply in_seq in Hk.
    replace (q + (i + 1) + Z.of_nat k) with (q + i + Z.of_nat (S k)) by lia.
    destruct rxBuf as [p |]; [| reflexivity].
    destruct (Z.eqb_spec (q + i + Z.of_nat (S k)) (p + i)) as [E | _];
      [| reflexivity].
    exfalso. apply (Hz p eq_refl O (S k)); lia.
Qed.

(** X7. On a ready handle, [transferBurst] with a send buffer at [q] and
    [len > 0] sends, in order, the bytes that RAM held at
    [q .. q + len - 1] when it was called, provided no received byte is
    stored over a byte still to be sent: that is so without a receive
    buffer, with one that does not overlap, and with the receive buffer
    equal to the send buffer (a burst in place). *)
Theorem burst_sends_buffer (this : PapilioSPI) (spi : SPIClass) (q : Z)
    (rxBuf : option Z) (len : Z) (w : World) :
  _initialized this = true ->
  _spi this = Some spi ->
  0 < len ->
  (forall p, rxBuf = Some p ->
     forall j k, 0 <= j < k -> k < len -> p + j <> q + k) ->
  exists rxs : list Z,
    Z.of_nat (length rxs) = len /\
    wire (snd (transferBurst this (Some q) rxBuf len w))
      = wire w ++ window this spi
          (exchanges spi
             (map (fun k => u8 (ram w (q + Z.of_nat k))) (seq 0 (Z.to_nat len)))
             rxs).
Proof.
  intros Hinit Hspi Hlen Hz.
  rewrite (transferBurst_window this spi (Some q) rxBuf len w Hinit Hspi) by lia.
  cbn [snd wire].
  destruct (burst_loop_sends spi q rxBuf (Z.to_nat len)) with
    (i := 0) (w := mkWorld (wire w ++ window_open this spi) (ram w))
    as (rxs & Hl & Hw).
  { intros p Hp j k Hjk. apply (Hz p Hp); lia. }
  exists rxs. split; [lia |].
  cbn [wire ram] in Hw.
  assert (Hmap : map (fun k => u8 (ram w (q + 0 + Z.of_nat k))) (seq 0 (Z.to_nat len))
                 = map (fun k => u8 (ram w (q + Z.of_nat k))) (seq 0 (Z.to_nat len)))
    by (apply map_ext; intros k; do 2 f_equal; lia).
  rewrite Hmap in Hw. rewrite Hw.
  unfold window. rewrite <- !app_assoc. reflexivity.
Qed.

(** ** Setters and the next window *)

(** X8. [setSpeed] stores any rate unchecked and [setMode] a mode up to
    [SPI_MODE3]; the window of the next transfer applies exactly what is
    stored: the new rate, and the new mode if it was accepted, the old one
    if it was refused. *)
Theorem setters_apply_to_next_window (this : PapilioSPI) (spi : SPIClass)
    (hz mode data : Z) (w : World) :
  _initialized this = true ->
  _spi this = Some spi ->
  exists r : Z,
    wire (snd (transfer8 (setMode (setSpeed this hz) mode) data w))
    = wire w ++
      [BeginTransaction spi
         (mkSPISettings hz MSBFIRST
            (if mode <=? SPI_MODE3 then mode else _mode this));
       DigitalWrite (_cs this) LOW;
       DelayMicroseconds 1;
       Transfer spi data r;
       DelayMicroseconds 1;
       DigitalWrite (_cs this) HIGH;
       EndTransaction spi].
Proof.
  intros Hinit Hspi.
  destruct this as [spi' cs speed mode0 width init], w as [tr mem].
  cbn [_initialized _spi] in Hinit, Hspi. subst init spi'.
  unfold setMode, setSpeed. cbn [_spi _cs _speed _mode _bitWidth _initialized].
  destruct (mode <=? SPI_MODE3); run_method; cbn [snd]; eexists; reflexivity.
Qed.

(** ** Wide transfers and narrow ones send the same bytes *)

Lemma mosi_bytes_app (tr ev : list Event) :
  mosi_bytes (tr ++ ev) = mosi_bytes tr ++ mosi_bytes ev.
Proof. unfold mosi_bytes. apply flat_map_app. Qed.

(** X9. On a ready handle, [transfer32] of [v] shifts out the same bytes,
    in the same order, as [transfer16] of the high half of [v] followed by
    [transfer16] of its low half, and [transfer16] of [v] the same bytes as
    [transfer8] of its high byte followed by [transfer8] of its low byte;
    only the number of windows differs. *)
Theorem wide_transfer_sends_narrow_bytes (this : PapilioSPI) (v : Z) (w : World) :
  ready this = true ->
  (0 <= v < 2 ^ 32 ->
   mosi_bytes (wire (snd (transfer32 this v w)))
   = mosi_bytes (wire (snd (transfer16 this (v mod 2 ^ 16)
                              (snd (transfer16 this (v / 2 ^ 16) w)))))) /\
  (0 <= v < 2 ^ 16 ->
   mosi_bytes (wire (snd (transfer16 this v w)))
   = mosi_bytes (wire (snd (transfer8 this (v mod 2 ^ 8)
                              (snd (transfer8 this (v / 2 ^ 8) w)))))).
Proof.
  intros Hr. destruct (ready_inv this Hr) as (Hinit & spi & Hspi).
  destruct this as [spi' cs speed mode width init], w as [tr mem].
  cbn [_initialized _spi] in Hinit, Hspi. subst init spi'.
  split; intros Hv; run_method; cbn [snd];
    rewrite !mosi_bytes_app; cbn [mosi_bytes flat_map app];
    rewrite ?app_nil_r; rewrite <- ?app_assoc; cbn [app];
    rewrite ?byte_of_word, ?low_byte_of_word by lia;
    change (2 ^ 8) with 256 in *; change (2 ^ 16) with 65536 in *;
    change (2 ^ 24) with 16777216 in *; change (2 ^ 32) with 4294967296 in *.
  - replace (v / 65536 / 256 mod 256) with (v / 16777216 mod 256)
      by (Z.div_mod_to_equations; lia).
    replace (v mod 65536 / 256 mod 256) with (v / 256 mod 256)
      by (Z.div_mod_to_equations; lia).
    replace (v mod 65536 mod 256) with (v mod 256)
      by (Z.div_mod_to_equations; lia).
    reflexivity.
  - replace (v / 256 mod 256) with (v / 256)
      by (Z.div_mod_to_equations; lia).
    reflexivity.
Qed.

(** ** The transfer loop of the burst example *)

Lemma last_mosi_app (tr ev : list Event) (acc : Z) :
  last_mosi (tr ++ ev) acc = last_mosi ev (last_mosi tr acc).
Proof.
  revert acc. induction tr as [| e tr IH]; intros acc; [reflexivity |].
  destruct e; cbn; apply IH.
Qed.

(** [transfer8] on a ready handle, spelled out. *)
Lemma transfer8_ready (this : PapilioSPI) (spi : SPIClass) (data : Z) (w : World) :
  _initialized this = true ->
  _spi this = Some spi ->
  transfer8 this data w =
    (u8 (dev (wire w ++ window_open this spi) spi data),
     mkWorld (wire w ++ window this spi
                [Transfer spi data (u8 (dev (wire w ++ window_open this spi) spi data))])
             (ram w)).
Proof.
  intros Hinit Hspi.
  destruct this as [spi' cs speed mode width init], w as [tr mem].
  cbn [_initialized _spi] in Hinit, Hspi. subst init spi'.
  run_method. reflexivity.
Qed.

Lemma transfer8_loop_cons (this : PapilioSPI) (d : Z) (rest : list Z) (w : World) :
  fst (transfer8_loop this (d :: rest) w) =
    fst (transfer8 this d w)
    :: fst (transfer8_loop this rest
              (mkWorld (wire (snd (transfer8 this d w)) ++ [DelayMicroseconds 50])
                       (ram (snd (transfer8 this d w))))).
Proof.
  cbn [transfer8_loop]. unfold bind, delayMicroseconds, emit, ret.
  destruct (transfer8 this d w) as [r w1]. cbn [fst snd].
  destruct (transfer8_loop this rest _) as [rs w3]. reflexivity.
Qed.

Lemma transfer8_loop_shifts (this : PapilioSPI) (spi : SPIClass) (tx_data : list Z) :
  (forall tr s tx, u8 (dev tr s tx) = u8 (last_mosi tr 0)) ->
  _initialized this = true ->
  _spi this = Some spi ->
  Forall (fun b => 0 <= b < 256) tx_data ->
  forall w : World,
    fst (transfer8_loop this tx_data w)
    = firstn (length tx_data) (u8 (last_mosi (wire w) 0) :: tx_data).
Proof.
  intros Hdev Hinit Hspi Hb.
  induction Hb as [| d rest Hd Hrest IH]; intros w; [reflexivity |].
  rewrite transfer8_loop_cons, IH.
  rewrite (transfer8_ready this spi d w Hinit Hspi). cbn [fst snd wire ram].
  cbn [length firstn]. f_equal.
  - rewrite Hdev, last_mosi_app. reflexivity.
  - f_equal. f_equal.
    unfold window. rewrite !last_mosi_app. cbn.
    unfold u8. apply Z.mod_small. exact Hd.
Qed.


(** ** A burst of one byte *)

(** X11. On a ready handle a burst of one byte, from a send buffer at [q]
    into a receive buffer at [p], is [transfer8] of the byte at [q]: the
    same calls on the wire, and the byte [transfer8] would return stored
    at [p]. *)
Theorem burst_of_one_is_transfer8 (this : PapilioSPI) (q p : Z) (w : World) :
  ready this = true ->
  wire (snd (transferBurst this (Some q) (Some p) 1 w))
  = wire (snd (transfer8 this (u8 (ram w q)) w)) /\
  ram (snd (transferBurst this (Some q) (Some p) 1 w)) p
  = fst (transfer8 this (u8 (ram w q)) w).
Proof.
  intros Hr. destruct (ready_inv this Hr) as (Hinit & spi & Hspi).
  rewrite (transferBurst_window this spi (Some q) (Some p) 1 w Hinit Hspi)
    by discriminate.
  rewrite (transfer8_ready this spi _ w Hinit Hspi).
  change (Z.to_nat 1) with 1%nat. rewrite burst_loop_step.
  cbn [burst_loop ret snd fst wire ram].
  replace (q + 0) with q by lia. replace (p + 0) with p by lia.
  rewrite Z.eqb_refl. split; [| reflexivity].
  unfold window. rewrite <- !app_assoc. reflexivity.
Qed.

(** ** Pins other than the select line *)

Lemma invoke_other_pin (c : Call) (this : PapilioSPI) (w : World) (pin : Z)
    (lvl : option Level) :
  pin <> _cs this ->
  (forall spi cs_pin speed mode,
     c = Call_begin spi cs_pin speed mode -> pin <> cs_pin) ->
  line pin (wire (snd (invoke c this w))) lvl = line pin (wire w) lvl /\
  pin <> _cs (snd (fst (invoke c this w))).
Proof.
  intros Hpin Hbegin. split.
  - destruct (invoke_emits c this w)
      as (ev & -> & [(spi & cs_pin & speed & mode & Hc & ->)
                    | [[-> _] | (spi & txs & rxs & _ & _ & _ & ->)]]);
      rewrite line_app.
    + cbn. specialize (Hbegin spi cs_pin speed mode Hc).
      destruct (Z.eqb_spec cs_pin pin); [congruence | reflexivity].
    + reflexivity.
    + rewrite (line_window pin this spi _ _ (forallb_exchanges spi txs rxs)).
      destruct (Z.eqb_spec (_cs this) pin); [congruence | reflexivity].
  - rewrite invoke_this. destruct c; try exact Hpin.
    + cbn [_cs]. eapply Hbegin. reflexivity.
    + unfold setBitWidth.
      destruct ((width =? 8) || (width =? 16) || (width =? 32)); exact Hpin.
    + unfold setMode. destruct (mode <=? SPI_MODE3); exact Hpin.
Qed.

(** X12. A handle drives no pin but its select line: the level of a pin
    that is neither the handle's current select pin nor the select pin of
    any [begin] in a call sequence is the same after the sequence as
    before it. *)
Theorem run_other_pins_untouched (cs : list Call) (pin : Z) (lvl : option Level) :
  (forall spi cs_pin speed mode,
     In (Call_begin spi cs_pin speed mode) cs -> pin <> cs_pin) ->
  forall (this : PapilioSPI) (w : World),
    pin <> _cs this ->
    line pin (wire (snd (run cs this w))) lvl = line pin (wire w) lvl.
Proof.
  induction cs as [| c cs IH]; intros Hbegin this w Hpin; [reflexivity |].
  rewrite run_cons.
  destruct (invoke_other_pin c this w pin lvl Hpin) as [E Hpin'].
  { intros spi cs_pin speed mode ->. eapply Hbegin. left. reflexivity. }
  rewrite IH; [exact E | | exact Hpin'].
  intros spi cs_pin speed mode Hin. eapply Hbegin. right. exact Hin.
Qed.

End Methods.

(** * The model at work

    The theorems above hold for every peripheral and every value of the
    clock-mode constants.  Below they are applied to the handle [link], the
    ESP32 constants and the peripherals [echo], [pipeline] and
    [stuck_high]. *)

(** The call history of a handle that was begun and then ended. *)
Example ended_history_not_begun :
  begun [Call_begin (Some 1) 10 1000000 1; Call_transfer8 7; Call_end] false = false.
Proof. reflexivity. Qed.

(** [begin] from the constructor's state yields [link]. *)
Example begin_yields_link :
  fst (begin (PapilioSPI_ctor ESP32_SPI_MODE0) (Some 1) 10 1000000 1 boot)
  = (true, link).
Proof. reflexivity. Qed.

(** Through the one-exchange pipeline of the loop-back design, the word that
    comes back is the word sent shifted down by one byte. *)
Example transfer32_through_pipeline :
  fst (transfer32 pipeline link 0xDEADBEEF boot) = 0x00DEADBE.
Proof. vm_compute. reflexivity. Qed.

(** A three-byte burst in place over the buffer at 100, through the
    pipeline: the buffer ends up shifted by one position. *)
Example burst_in_place_through_pipeline :
  let w := snd (transferBurst pipeline link (Some 100) (Some 100) 3 boot_buf) in
  (ram w 100, ram w 101, ram w 102, ram w 103) = (0, 17, 34, 0).
Proof. vm_compute. reflexivity. Qed.

(** C1 applied: 0xDEADBEEF and 0xBEEF over a MOSI-to-MISO wire. *)
Lemma C1_witness :
  (_initialized link = true /\ _spi link = Some 1 /\
   0 <= 0xDEADBEEF < 2 ^ 32 /\ 0 <= 0xBEEF < 2 ^ 16) /\
  fst (transfer32 echo link 0xDEADBEEF boot) = 0xDEADBEEF /\
  fst (transfer16 echo link 0xBEEF boot) = 0xBEEF.
Proof.
  split; [repeat split; (reflexivity || discriminate) |].
  split.
  - destruct (C1_transfer_msb_first echo link 1 boot 0xDEADBEEF eq_refl eq_refl)
      as [H32 _].
    destruct H32 as (r3 & r2 & r1 & r0 & _ & Heq & Hecho).
    { split; [discriminate | reflexivity]. }
    apply (f_equal (fun p => wire (snd p))) in Heq. vm_compute in Heq.
    apply Hecho; vm_compute; congruence.
  - destruct (C1_transfer_msb_first echo link 1 boot 0xBEEF eq_refl eq_refl)
      as [_ H16].
    destruct H16 as (r1 & r0 & _ & Heq & Hecho).
    { split; [discriminate | reflexivity]. }
    apply (f_equal (fun p => wire (snd p))) in Heq. vm_compute in Heq.
    apply Hecho; vm_compute; congruence.
Defined.

(** C2 applied: a handle begun, used and ended. *)
Lemma C2_witness :
  begun [Call_begin (Some 1) 10 1000000 1; Call_transfer8 7; Call_end] false = false /\
  (transfer8 echo
     (fst (run ESP32_SPI_MODE3 echo
             [Call_begin (Some 1) 10 1000000 1; Call_transfer8 7; Call_end]
             (PapilioSPI_ctor ESP32_SPI_MODE0) boot))
     0xA5 boot_buf = (0, boot_buf) /\
   transfer16 echo
     (fst (run ESP32_SPI_MODE3 echo
             [Call_begin (Some 1) 10 1000000 1; Call_transfer8 7; Call_end]
             (PapilioSPI_ctor ESP32_SPI_MODE0) boot))
     0xA5 boot_buf = (0, boot_buf) /\
   transfer32 echo
     (fst (run ESP32_SPI_MODE3 echo
             [Call_begin (Some 1) 10 1000000 1; Call_transfer8 7; Call_end]
             (PapilioSPI_ctor ESP32_SPI_MODE0) boot))
     0xA5 boot_buf = (0, boot_buf) /\
   transferBurst echo
     (fst (run ESP32_SPI_MODE3 echo
             [Call_begin (Some 1) 10 1000000 1; Call_transfer8 7; Call_end]
             (PapilioSPI_ctor ESP32_SPI_MODE0) boot))
     (Some 100) (Some 100) 3 boot_buf = (tt, boot_buf)).
Proof.
  split; [reflexivity |].
  apply (C2_not_initialized_returns_zero ESP32_SPI_MODE0 ESP32_SPI_MODE3 echo
           [Call_begin (Some 1) 10 1000000 1; Call_transfer8 7; Call_end] boot).
  reflexivity.
Defined.

(** C3 applied: [transfer32] on [link], and a [begin] followed by a
    [transfer32] from the constructor's state. *)
Lemma C3_witness :
  (is_transfer (Call_transfer32 0xDEADBEEF) = true /\
   has_begin [Call_begin (Some 1) 10 1000000 1; Call_transfer32 0xDEADBEEF] = true) /\
  (exists ev : list Event,
     wire (snd (invoke ESP32_SPI_MODE3 echo (Call_transfer32 0xDEADBEEF) link boot))
       = wire boot ++ ev /\
     (ev = [] \/
      exists (spi : SPIClass) (body : list Event),
        _initialized link = true /\ _spi link = Some spi /\
        ev = [BeginTransaction spi (mkSPISettings (_speed link) MSBFIRST (_mode link));
              DigitalWrite (_cs link) LOW;
              DelayMicroseconds 1]
             ++ body ++
             [DelayMicroseconds 1;
              DigitalWrite (_cs link) HIGH;
              EndTransaction spi] /\
        forallb is_exchange body = true)) /\
  line (_cs (fst (run ESP32_SPI_MODE3 echo
                    [Call_begin (Some 1) 10 1000000 1; Call_transfer32 0xDEADBEEF]
                    (PapilioSPI_ctor ESP32_SPI_MODE0) boot)))
       (wire (snd (run ESP32_SPI_MODE3 echo
                     [Call_begin (Some 1) 10 1000000 1; Call_transfer32 0xDEADBEEF]
                     (PapilioSPI_ctor ESP32_SPI_MODE0) boot)))
       None
  = Some HIGH.
Proof.
  destruct (C3_select_line_released ESP32_SPI_MODE3 echo) as (Hwin & _ & Hidle).
  split; [split; reflexivity |].
  split.
  - apply Hwin. reflexivity.
  - apply Hidle. reflexivity.
Defined.

(** C4 applied: a read-only burst of three bytes into the buffer at 100. *)
Lemma C4_witness :
  (_initialized link = true /\ _spi link = Some 1 /\ 0 < 3) /\
  Z.of_nat (exchange_count
              (wire (snd (transferBurst pipeline link None (Some 100) 3 boot_buf))))
  = 3 /\
  (forall a, a < 100 \/ 100 + 3 <= a ->
     ram (snd (transferBurst pipeline link None (Some 100) 3 boot_buf)) a
     = ram boot_buf a).
Proof.
  split; [repeat split; reflexivity |].
  destruct (C4_burst_exchanges_len_bytes pipeline link 1 None (Some 100) 3 boot_buf
              eq_refl eq_refl eq_refl)
    as (txs & rxs & _ & _ & _ & _ & Hcount & _ & _ & Hrx).
  split.
  - exact Hcount.
  - exact (proj2 (Hrx 100 eq_refl)).
Defined.

(** C6 applied: width 12 and mode 4 are ignored, width 16 and mode 2 stored. *)
Lemma C6_witness :
  (12 <> 8 /\ 12 <> 16 /\ 12 <> 32 /\ ESP32_SPI_MODE3 < 4 /\ 2 <= ESP32_SPI_MODE3) /\
  setBitWidth link 12 = link /\
  setMode ESP32_SPI_MODE3 link 4 = link /\
  setBitWidth link 16 = mkPapilioSPI (Some 1) 10 1000000 1 16 true /\
  setMode ESP32_SPI_MODE3 link 2 = mkPapilioSPI (Some 1) 10 1000000 2 8 true.
Proof.
  split; [repeat split; (discriminate || reflexivity) |].
  split; [| split; [| split]].
  - apply (proj1 (C6_setters_ignore_unsupported ESP32_SPI_MODE3 link 12));
      discriminate.
  - apply (proj1 (proj2 (C6_setters_ignore_unsupported ESP32_SPI_MODE3 link 4))).
    reflexivity.
  - apply (proj1 (proj2 (proj2 (C6_setters_ignore_unsupported ESP32_SPI_MODE3 link 16)))).
    right. left. reflexivity.
  - apply (proj2 (proj2 (proj2 (C6_setters_ignore_unsupported ESP32_SPI_MODE3 link 2)))).
    discriminate.
Defined.

(** C7 as the specification states it fails: [isReady] answers false on a
    handle fresh from the constructor and true on [link], so no single value
    is returned in every state. *)
Lemma C7_isReady_depends_on_state :
  fst (isReady stuck_high (PapilioSPI_ctor ESP32_SPI_MODE0) boot) = false /\
  fst (isReady stuck_high link boot) = true /\
  ~ (exists b : bool,
       forall (dev : Peripheral) (this : PapilioSPI) (w : World),
         fst (isReady dev this w) = b).
Proof.
  split; [reflexivity |]. split; [reflexivity |].
  intros [b Hb].
  pose proof (Hb stuck_high (PapilioSPI_ctor ESP32_SPI_MODE0) boot) as H0.
  pose proof (Hb stuck_high link boot) as H1.
  cbv in H0, H1. congruence.
Qed.

(** C9 applied: [link] and [link] switched to width 32. *)
Lemma C9_witness :
  same_but_width link (setBitWidth link 32) /\
  transfer32 echo link 0xDEADBEEF boot
  = transfer32 echo (setBitWidth link 32) 0xDEADBEEF boot /\
  transferBurst echo link (Some 100) (Some 100) 3 boot_buf
  = transferBurst echo (setBitWidth link 32) (Some 100) (Some 100) 3 boot_buf.
Proof.
  assert (H : same_but_width link (setBitWidth link 32))
    by (repeat split; reflexivity).
  split; [exact H |].
  pose proof (C9_width_not_observable ESP32_SPI_MODE3 echo link (setBitWidth link 32) H)
    as Hobs.
  split.
  - exact (proj1 (proj2 (proj2
             (Hobs boot 0xDEADBEEF None None 0 Call_end)))).
  - exact (proj1 (proj2 (proj2 (proj2
             (Hobs boot_buf 0 (Some 100) (Some 100) 3 Call_end))))).
Defined.

(** ** The further properties applied *)

(** X4 applied: a handle fresh from the constructor, called five times
    without a [begin], against a peripheral that answers 0xFF. *)
Lemma run_inert_until_begin_witness :
  (_initialized (PapilioSPI_ctor ESP32_SPI_MODE0) = false /\
   has_begin [Call_setSpeed 2000000; Call_transfer8 7; Call_isReady;
              Call_transferBurst None (Some 100) 3; Call_end] = false) /\
  snd (run ESP32_SPI_MODE3 stuck_high
         [Call_setSpeed 2000000; Call_transfer8 7; Call_isReady;
          Call_transferBurst None (Some 100) 3; Call_end]
         (PapilioSPI_ctor ESP32_SPI_MODE0) boot_buf) = boot_buf /\
  _initialized
    (fst (run ESP32_SPI_MODE3 stuck_high
            [Call_setSpeed 2000000; Call_transfer8 7; Call_isReady;
             Call_transferBurst None (Some 100) 3; Call_end]
            (PapilioSPI_ctor ESP32_SPI_MODE0) boot_buf)) = false.
Proof.
  split; [split; reflexivity |].
  apply (run_inert_until_begin ESP32_SPI_MODE3 stuck_high); reflexivity.
Defined.

(** X5 applied: a session from power-up through [begin], transfers of every
    width, a burst, a probe and [end]. *)
Lemma run_keeps_protocol_witness :
  phase_run Idle (wire boot_buf) = Some Idle /\
  phase_run Idle
    (wire (snd (run ESP32_SPI_MODE3 pipeline
                  [Call_begin (Some 1) 10 1000000 1; Call_transfer8 0xFF;
                   Call_transfer16 0xBEEF; Call_transfer32 0xDEADBEEF;
                   Call_setSpeed 4000000;
                   Call_transferBurst (Some 100) (Some 100) 3;
                   Call_isReady; Call_end; Call_transfer8 1]
                  (PapilioSPI_ctor ESP32_SPI_MODE0) boot_buf)))
  = Some Idle.
Proof.
  split; [reflexivity |].
  apply (run_keeps_protocol ESP32_SPI_MODE3 pipeline). reflexivity.
Defined.

(** X6 applied: the byte just past a three-byte receive buffer at 100. *)
Lemma run_ram_frame_witness :
  (forall txBuf p len,
     In (Call_transferBurst txBuf (Some p) len)
        [Call_begin (Some 1) 10 1000000 1;
         Call_transferBurst None (Some 100) 3; Call_readFifo] ->
     103 < p \/ p + len <= 103) /\
  ram (snd (run ESP32_SPI_MODE3 stuck_high
              [Call_begin (Some 1) 10 1000000 1;
               Call_transferBurst None (Some 100) 3; Call_readFifo]
              (PapilioSPI_ctor ESP32_SPI_MODE0) boot_buf)) 103
  = ram boot_buf 103.
Proof.
  assert (H : forall txBuf p len,
     In (Call_transferBurst txBuf (Some p) len)
        [Call_begin (Some 1) 10 1000000 1;
         Call_transferBurst None (Some 100) 3; Call_readFifo] ->
     103 < p \/ p + len <= 103).
  { intros txBuf p len [H | [H | [H | []]]]; try discriminate.
    injection H as _ <- <-. right. discriminate. }
  split; [exact H |].
  apply (run_ram_frame ESP32_SPI_MODE3 stuck_high _ 103 H).
Defined.

(** X7 applied: a burst in place over the three bytes at 100. *)
Lemma burst_sends_buffer_witness :
  (_initialized link = true /\ _spi link = Some 1 /\ 0 < 3 /\
   (forall p, Some 100 = Some p ->
      forall j k, 0 <= j < k -> k < 3 -> p + j <> 100 + k)) /\
  exists rxs : list Z,
    Z.of_nat (length rxs) = 3 /\
    wire (snd (transferBurst pipeline link (Some 100) (Some 100) 3 boot_buf))
    = wire boot_buf ++ window link 1 (exchanges 1 [17; 34; 51] rxs).
Proof.
  assert (H : forall p, Some 100 = Some p ->
      forall j k, 0 <= j < k -> k < 3 -> p + j <> 100 + k).
  { intros p Hp j k Hjk Hk. injection Hp as <-. lia. }
  split; [repeat split; (reflexivity || exact H) |].
  exact (burst_sends_buffer pipeline link 1 100 (Some 100) 3 boot_buf
           eq_refl eq_refl eq_refl H).
Defined.

(** X8 applied: 4 MHz is stored, mode 7 is refused, and the next window
    runs at 4 MHz in the mode [link] had. *)
Lemma setters_apply_to_next_window_witness :
  (_initialized link = true /\ _spi link = Some 1) /\
  exists r : Z,
    wire (snd (transfer8 echo
                 (setMode ESP32_SPI_MODE3 (setSpeed link 4000000) 7) 0xA5 boot))
    = wire boot ++
      [BeginTransaction 1 (mkSPISettings 4000000 MSBFIRST 1);
       DigitalWrite 10 LOW; DelayMicroseconds 1;
       Transfer 1 0xA5 r;
       DelayMicroseconds 1; DigitalWrite 10 HIGH; EndTransaction 1].
Proof.
  split; [split; reflexivity |].
  exact (setters_apply_to_next_window ESP32_SPI_MODE3 echo link 1 4000000 7 0xA5
           boot eq_refl eq_refl).
Defined.

(** X9 applied: 0xDEADBEEF as one 32-bit transfer and as two 16-bit ones,
    0xBEEF as one 16-bit transfer and as two 8-bit ones. *)
Lemma wide_transfer_sends_narrow_bytes_witness :
  (ready link = true /\ 0 <= 0xDEADBEEF < 2 ^ 32 /\ 0 <= 0xBEEF < 2 ^ 16) /\
  mosi_bytes (wire (snd (transfer32 stuck_high link 0xDEADBEEF boot)))
  = mosi_bytes (wire (snd (transfer16 stuck_high link (0xDEADBEEF mod 2 ^ 16)
                             (snd (transfer16 stuck_high link (0xDEADBEEF / 2 ^ 16)
                                     boot))))) /\
  mosi_bytes (wire (snd (transfer16 stuck_high link 0xBEEF boot)))
  = mosi_bytes (wire (snd (transfer8 stuck_high link (0xBEEF mod 2 ^ 8)
                             (snd (transfer8 stuck_high link (0xBEEF / 2 ^ 8)
                                     boot))))).
Proof.
  split; [repeat split; (reflexivity || discriminate) |].
  split.
  - apply (proj1 (wide_transfer_sends_narrow_bytes stuck_high link 0xDEADBEEF boot
                    eq_refl)).
    split; [discriminate | reflexivity].
  - apply (proj2 (wide_transfer_sends_narrow_bytes stuck_high link 0xBEEF boot
                    eq_refl)).
    split; [discriminate | reflexivity].
Defined.

Lemma tx_pattern_8bit_bytes : Forall (fun b => 0 <= b < 256) tx_pattern_8bit.
Proof.
  apply Forall_forall. intros b Hb. unfold tx_pattern_8bit in Hb.
  apply in_map_iff in Hb. destruct Hb as (i & <- & _).
  change 255 with (Z.ones 8). rewrite Z.land_ones by discriminate.
  apply Z.mod_pos_bound. reflexivity.
Defined.


(** X11 applied: one byte from 100 into 101. *)
Lemma burst_of_one_is_transfer8_witness :
  ready link = true /\
  wire (snd (transferBurst echo link (Some 100) (Some 101) 1 boot_buf))
  = wire (snd (transfer8 echo link (u8 (ram boot_buf 100)) boot_buf)) /\
  ram (snd (transferBurst echo link (Some 100) (Some 101) 1 boot_buf)) 101
  = fst (transfer8 echo link (u8 (ram boot_buf 100)) boot_buf).
Proof.
  split; [reflexivity |].
  exact (burst_of_one_is_transfer8 echo link 100 101 boot_buf eq_refl).
Defined.

(** X12 applied: pin 11 across a session on select pin 10. *)
Lemma run_other_pins_untouched_witness :
  ((forall spi cs_pin speed mode,
      In (Call_begin spi cs_pin speed mode)
         [Call_begin (Some 1) 10 1000000 1; Call_transfer32 0xDEADBEEF; Call_end] ->
      11 <> cs_pin) /\
   11 <> _cs (PapilioSPI_ctor ESP32_SPI_MODE0)) /\
  line 11 (wire (snd (run ESP32_SPI_MODE3 echo
                        [Call_begin (Some 1) 10 1000000 1;
                         Call_transfer32 0xDEADBEEF; Call_end]
                        (PapilioSPI_ctor ESP32_SPI_MODE0) boot))) (Some LOW)
  = line 11 (wire boot) (Some LOW).
Proof.
  assert (H : forall spi cs_pin speed mode,
      In (Call_begin spi cs_pin speed mode)
         [Call_begin (Some 1) 10 1000000 1; Call_transfer32 0xDEADBEEF; Call_end] ->
      11 <> cs_pin).
  { intros spi cs_pin speed mode [E | [E | [E | []]]]; try discriminate.
    injection E as _ <- _ _. discriminate. }
  assert (H' : 11 <> _cs (PapilioSPI_ctor ESP32_SPI_MODE0)) by discriminate.
  split; [split; assumption |].
  apply (run_other_pins_untouched ESP32_SPI_MODE3 echo _ 11 (Some LOW) H _ _ H').
Defined.
